(** * BrowseTabContent: session restoration, reaction restore and ALT-click input

    A shallow embedding of the script part of
    [resources/js/components/BrowseTabContent.vue] (and of the
    [remove-from-masonry] arrow function of its template).

    The component is single threaded.  Its reactive refs and the props it
    reads form one record, [Component]; every call into a collaborator
    (the Masonry instance, the FileViewer, the reaction queue, the parent
    callbacks) and every assignment to a ref is appended to a trace of
    [Event]s, so that ordering statements can be made about the code.
    Promises and timers are resolved by an environment, [Env]. *)

From Stdlib Require Import List ZArith String Ascii Bool Arith Lia.
From Equations Require Import Equations.
Import ListNotations.

(** ** JavaScript values held by [queryParams] and by the pagination refs *)

(** [string | number | null], plus [undefined] for an absent key. *)
Inductive JsVal : Type :=
| JUndefined
| JNull
| JNum (n : Z)
| JStr (s : string).

(** [v !== undefined && v !== null] *)
Definition present (v : JsVal) : bool :=
  match v with
  | JUndefined | JNull => false
  | JNum _ | JStr _ => true
  end.

(** [v ?? d] *)
Definition nullish_or (v d : JsVal) : JsVal :=
  if present v then v else d.

(** JavaScript truthiness of the values above. *)
Definition truthy (v : JsVal) : bool :=
  match v with
  | JUndefined | JNull => false
  | JNum n => negb (Z.eqb n 0)
  | JStr s => negb (String.eqb s EmptyString)
  end.

(** [v || d] *)
Definition js_or (v d : JsVal) : JsVal :=
  if truthy v then v else d.

(** [typeof v === 'string' && v.length > 0] *)
Definition nonempty_string (v : JsVal) : bool :=
  match v with
  | JStr s => Nat.ltb 0 (String.length s)
  | _ => false
  end.

(** ** Data model *)

Record MasonryItem : Type := mkItem {
  id : Z;
  width : Z;
  height : Z;
  src : string;
  type : string;
  notFound : bool
}.

Record QueryParams : Type := mkQuery {
  service : JsVal;
  page : JsVal;
  next : JsVal
}.

Record BrowseTabData : Type := mkTab {
  tab_id : Z;
  queryParams : option QueryParams;
  fileIds : option (list Z);
  itemsData : option (list MasonryItem)
}.

(** [tab.queryParams?.key] *)
Definition query (key : QueryParams -> JsVal) (t : BrowseTabData) : JsVal :=
  match queryParams t with
  | Some q => key q
  | None => JUndefined
  end.

(** [(xs?.length ?? 0) > 0], which is also [xs && xs.length > 0] *)
Definition nonempty {A : Type} (xs : option (list A)) : bool :=
  match xs with
  | Some (_ :: _) => true
  | _ => false
  end.

(** What the component can observe of the Masonry instance behind the
    [masonry] ref: its [isLoading] flag and which optional methods exist. *)
Record MasonryInstance : Type := mkMasonry {
  isLoading : bool;
  has_restore : bool;
  has_add : bool;
  has_insert : bool;
  has_refreshLayout : bool
}.

Inductive ReactionType : Type := love | like | dislike | funny.

(** The closure [restoreItem] of [handleMasonryReaction]: it captures the
    reacted item and the index it had. *)
Record RestoreItem : Type := mkRestore {
  captured_item : MasonryItem;
  captured_index : Z
}.

(** ** Component state *)

Record Component : Type := mkComponent {
  (* props *)
  tab : option BrowseTabData;
  onTabDataLoadingChange : bool;
  onLoadingChange : bool;
  (* refs *)
  items : list MasonryItem;
  masonry : option MasonryInstance;
  fileViewer : bool;
  masonryContainer : bool;
  currentPage : JsVal;
  nextCursor : JsVal;
  loadAtPage : JsVal;
  isTabRestored : bool;
  pendingRestoreNextCursor : JsVal;
  selectedService : JsVal
}.

(** Assignments made by the code. *)
Inductive Write : Type :=
| WIsTabRestored (b : bool)
| WSelectedService (v : JsVal)
| WPendingRestoreNextCursor (v : JsVal)
| WTabItemsData (l : list MasonryItem)
| WCurrentPage (v : JsVal)
| WNextCursor (v : JsVal)
| WLoadAtPage (v : JsVal)
| WItems (l : list MasonryItem).

Definition set_itemsData (l : list MasonryItem) (t : BrowseTabData) : BrowseTabData :=
  mkTab (tab_id t) (queryParams t) (fileIds t) (Some l).

Definition apply_write (w : Write) (c : Component) : Component :=
  match w with
  | WIsTabRestored b =>
      mkComponent (tab c) (onTabDataLoadingChange c) (onLoadingChange c) (items c)
        (masonry c) (fileViewer c) (masonryContainer c) (currentPage c) (nextCursor c)
        (loadAtPage c) b (pendingRestoreNextCursor c) (selectedService c)
  | WSelectedService v =>
      mkComponent (tab c) (onTabDataLoadingChange c) (onLoadingChange c) (items c)
        (masonry c) (fileViewer c) (masonryContainer c) (currentPage c) (nextCursor c)
        (loadAtPage c) (isTabRestored c) (pendingRestoreNextCursor c) v
  | WPendingRestoreNextCursor v =>
      mkComponent (tab c) (onTabDataLoadingChange c) (onLoadingChange c) (items c)
        (masonry c) (fileViewer c) (masonryContainer c) (currentPage c) (nextCursor c)
        (loadAtPage c) (isTabRestored c) v (selectedService c)
  | WTabItemsData l =>
      mkComponent (option_map (set_itemsData l) (tab c)) (onTabDataLoadingChange c)
        (onLoadingChange c) (items c)
        (masonry c) (fileViewer c) (masonryContainer c) (currentPage c) (nextCursor c)
        (loadAtPage c) (isTabRestored c) (pendingRestoreNextCursor c) (selectedService c)
  | WCurrentPage v =>
      mkComponent (tab c) (onTabDataLoadingChange c) (onLoadingChange c) (items c)
        (masonry c) (fileViewer c) (masonryContainer c) v (nextCursor c)
        (loadAtPage c) (isTabRestored c) (pendingRestoreNextCursor c) (selectedService c)
  | WNextCursor v =>
      mkComponent (tab c) (onTabDataLoadingChange c) (onLoadingChange c) (items c)
        (masonry c) (fileViewer c) (masonryContainer c) (currentPage c) v
        (loadAtPage c) (isTabRestored c) (pendingRestoreNextCursor c) (selectedService c)
  | WLoadAtPage v =>
      mkComponent (tab c) (onTabDataLoadingChange c) (onLoadingChange c) (items c)
        (masonry c) (fileViewer c) (masonryContainer c) (currentPage c) (nextCursor c)
        v (isTabRestored c) (pendingRestoreNextCursor c) (selectedService c)
  | WItems l =>
      mkComponent (tab c) (onTabDataLoadingChange c) (onLoadingChange c) l
        (masonry c) (fileViewer c) (masonryContainer c) (currentPage c) (nextCursor c)
        (loadAtPage c) (isTabRestored c) (pendingRestoreNextCursor c) (selectedService c)
  end.

(** The [masonry] template ref is rebound by the renderer, not by the
    script: the component only observes it after a suspension point. *)
Definition observe_masonry (m : option MasonryInstance) (c : Component) : Component :=
  mkComponent (tab c) (onTabDataLoadingChange c) (onLoadingChange c) (items c)
    m (fileViewer c) (masonryContainer c) (currentPage c) (nextCursor c)
    (loadAtPage c) (isTabRestored c) (pendingRestoreNextCursor c) (selectedService c).

(** ** Events: collaborator calls and assignments, in program order *)

Inductive Event : Type :=
| EvWrite (w : Write)
| EvFileViewerClose
| EvOpenFromClick
| EvCancelLoad
| EvDestroy
| EvMasonryInit (its : list MasonryItem) (pageValue nextValue : JsVal)
| EvMasonryRemove (it : MasonryItem)
| EvMasonryRestore (it : MasonryItem) (index : Z)
| EvMasonryAdd (it : MasonryItem) (index : Z)
| EvMasonryInsert (it : MasonryItem) (index : Z)
| EvRefreshLayout (its : list MasonryItem)
| EvScheduleRefreshLayout
| EvTabDataLoadingChange (loading : bool)
| EvEmitUpdateLoading (loading : bool)
| EvLoadingChange (loading : bool)
| EvLoadTabItems (tabId : Z)
| EvConsoleError (msg : string)
| EvNextTick
| EvSetTimeout (ms : Z)
| EvPreventDefault
| EvStopPropagation
| EvQueueReaction (fileId : Z) (ty : ReactionType) (previewUrl : option string)
    (restore : option RestoreItem) (tabId : option Z) (itemIndex : Z)
    (item : option MasonryItem)
| EvOnReaction (fileId : Z) (ty : ReactionType).

(** ** Environment: how promises settle and what the renderer mounts *)

Inductive Settled (A : Type) : Type :=
| Resolved (a : A)
| Rejected (reason : string).
Arguments Resolved {A} a.
Arguments Rejected {A} reason.

Record Env : Type := mkEnv {
  (** the promise returned by [props.loadTabItems(tabId)] *)
  loadTabItems : Z -> Settled (list MasonryItem);
  (** the value of [masonry.value] seen after the [k]-th suspension point
      that follows the installation of the tab's state: [0] is the
      [nextTick] of line 423, [k + 1] the end of the [k]-th poll *)
  masonryAt : nat -> option MasonryInstance;
  (** what [masonry.remove(item)] does to the [v-model] list *)
  masonryRemove : MasonryItem -> list MasonryItem -> list MasonryItem
}.

(** ** A small monad: state, trace and exceptions *)

Inductive Result (A : Type) : Type :=
| Ok (a : A)
| Throw (reason : string).
Arguments Ok {A} a.
Arguments Throw {A} reason.

Record Run (A : Type) : Type := mkRun {
  result : Result A;
  final : Component;
  trace : list Event
}.

Arguments mkRun {A} result final trace.
Arguments result {A} r.
Arguments final {A} r.
Arguments trace {A} r.

Definition M (A : Type) : Type := Component -> Run A.

Definition ret {A : Type} (a : A) : M A :=
  fun c => mkRun (Ok a) c [].

Definition bind {A B : Type} (m : M A) (k : A -> M B) : M B :=
  fun c =>
    let r := m c in
    match result r with
    | Ok a => let r' := k a (final r) in
              mkRun (result r') (final r') (trace r ++ trace r')
    | Throw e => mkRun (Throw e) (final r) (trace r)
    end.

Notation "x <- m ;; k" := (bind m (fun x => k))
  (at level 61, m at next level, right associativity).
Notation "m ;; k" := (bind m (fun _ => k))
  (at level 61, right associativity).

Definition throw {A : Type} (e : string) : M A :=
  fun c => mkRun (Throw e) c [].

Definition get : M Component :=
  fun c => mkRun (Ok c) c [].

Definition emit (e : Event) : M unit :=
  fun c => mkRun (Ok tt) c [e].

(** [ref.value = v], logged. *)
Definition write (w : Write) : M unit :=
  fun c => mkRun (Ok tt) (apply_write w c) [EvWrite w].

Definition when (b : bool) (m : M unit) : M unit :=
  if b then m else ret tt.

(** [try { body } catch (error) { handler } finally { fin }] *)
Definition try_catch_finally (body : M unit) (handler : string -> M unit)
    (fin : M unit) : M unit :=
  fun c =>
    let r := body c in
    let r1 :=
      match result r with
      | Ok _ => r
      | Throw e => let h := handler e (final r) in
                   mkRun (result h) (final h) (trace r ++ trace h)
      end in
    let f := fin (final r1) in
    match result f with
    | Ok _ => mkRun (result r1) (final f) (trace r1 ++ trace f)
    | Throw e => mkRun (Throw e) (final f) (trace r1 ++ trace f)
    end.

(** [await promise]: the resolved value, or the rejection thrown. *)
Definition await {A : Type} (p : Settled A) : M A :=
  match p with
  | Resolved a => ret a
  | Rejected e => throw e
  end.

(** ** [initializeTab] and [onUnmounted] *)

(** Lines 349-354 and 473-478: the same block in both functions. *)
Definition destroyMasonry : M unit :=
  c <- get ;;
  match masonry c with
  | Some m =>
      when (isLoading m) (emit EvCancelLoad) ;;
      emit EvDestroy
  | None => ret tt
  end.

(** Lines 369-388: reload the item snapshots of the tab. *)
Definition reloadItems (env : Env) (t : BrowseTabData) : M unit :=
  c <- get ;;
  if nonempty (fileIds t) then
    try_catch_finally
      (when (onTabDataLoadingChange c) (emit (EvTabDataLoadingChange true)) ;;
       emit (EvLoadTabItems (tab_id t)) ;;
       loadedItems <- await (loadTabItems env (tab_id t)) ;;
       write (WTabItemsData loadedItems))
      (fun error =>
         emit (EvConsoleError "Failed to load tab items:") ;;
         write (WTabItemsData []))
      (when (onTabDataLoadingChange c) (emit (EvTabDataLoadingChange false)))
  else
    write (WTabItemsData []).

(** [tab.itemsData && tab.itemsData.length > 0], read from the tab object
    as it is now. *)
Definition tabHasItems (c : Component) : bool :=
  match tab c with
  | Some t => nonempty (itemsData t)
  | None => false
  end.

Definition tabItemsData (c : Component) : list MasonryItem :=
  match tab c with
  | Some (mkTab _ _ _ (Some l)) => l
  | _ => []
  end.

(** Lines 428-433: [while (!masonry.value && retries < 20)].  Returns the
    final value of [retries]. *)
Equations? waitForMasonry (env : Env) (retries : nat) (c : Component)
  : nat * Component * list Event by wf (20 - retries) lt :=
waitForMasonry env retries c with masonry c := {
  | Some _ := (retries, c, []);
  | None with lt_dec retries 20 := {
    | left _ :=
        let '(r, c', tr) :=
          waitForMasonry env (S retries)
            (observe_masonry (masonryAt env (S retries)) c) in
        (r, c', EvNextTick :: EvSetTimeout 50 :: tr);
    | right _ := (retries, c, []) } }.
Proof. change (20 - S retries < 20 - retries). lia. Qed.

Definition pollMasonry (env : Env) : M nat :=
  fun c => let '(r, c', tr) := waitForMasonry env 0 c in mkRun (Ok r) c' tr.

(** [await nextTick()] at line 423: the renderer has run. *)
Definition nextTickAfterInstall (env : Env) : M unit :=
  fun c => mkRun (Ok tt) (observe_masonry (masonryAt env 0) c) [EvNextTick].

(** Lines 425-459: wait for the masonry component to be ready and hand it
    the pre-loaded items.  Only waits if there are items to initialize
    with.  [EvMasonryInit] records the call of [masonry.init]; what the
    instance then puts into the [v-model] list is its own doing and is not
    part of this function: nothing below is stated about [items] after a
    call of [init]. *)
Definition initWithPreloadedItems (env : Env) (pageFromQuery nextFromQuery : JsVal)
  : M unit :=
  c2 <- get ;;
  if tabHasItems c2 then
    retries <- pollMasonry env ;;
    (* If we have pre-loaded items, use masonry.init() to properly initialize *)
    c3 <- get ;;
    match masonry c3 with
    | Some _ =>
        let pageValue := if present pageFromQuery then pageFromQuery else JNum 1 in
        let nextValue := if present nextFromQuery then nextFromQuery else JNull in
        when (present pageValue) (write (WCurrentPage pageValue)) ;;
        when (present nextValue) (write (WNextCursor nextValue)) ;;
        emit (EvMasonryInit (tabItemsData c3) pageValue nextValue) ;;
        emit EvNextTick ;;
        emit EvScheduleRefreshLayout
    | None => ret tt
    end
  else ret tt.

Definition initializeTab (env : Env) : M unit :=
  c0 <- get ;;
  match tab c0 with
  | None => ret tt
  | Some t =>
      (* Close fileviewer *)
      when (fileViewer c0) (emit EvFileViewerClose) ;;
      (* Destroy existing masonry instance *)
      destroyMasonry ;;
      let tabHasRestorableItems := nonempty (fileIds t) || nonempty (itemsData t) in
      write (WIsTabRestored tabHasRestorableItems) ;;
      (* Restore selected service for UI *)
      let serviceFromQuery := query service t in
      write (WSelectedService (js_or serviceFromQuery (JStr ""))) ;;
      (* Restore both page and next from queryParams *)
      let pageFromQuery := query page t in
      let nextFromQuery := query next t in
      write (WPendingRestoreNextCursor
               (if tabHasRestorableItems then nullish_or nextFromQuery JNull else JNull)) ;;
      (* Always reload items from database when initializing *)
      reloadItems env t ;;
      (* Restore currentPage from saved queryParams *)
      (if present pageFromQuery
       then write (WCurrentPage pageFromQuery)
       else write (WCurrentPage (JNum 1))) ;;
      (* Restore nextCursor from saved queryParams *)
      (if present nextFromQuery
       then write (WNextCursor nextFromQuery)
       else write (WNextCursor JNull)) ;;
      (* Set loadAtPage and prepare for masonry initialization *)
      let serviceValue := query service t in
      let hasService := nonempty_string serviceValue in
      c1 <- get ;;
      (if tabHasItems c1 then
         write (WLoadAtPage JNull) ;;
         write (WItems [])
       else if hasService then
         (if present pageFromQuery
          then write (WLoadAtPage pageFromQuery)
          else write (WLoadAtPage (JNum 1))) ;;
         write (WItems [])
       else
         write (WLoadAtPage JNull) ;;
         write (WItems [])) ;;
      nextTickAfterInstall env ;;
      initWithPreloadedItems env pageFromQuery nextFromQuery ;;
      write (WIsTabRestored false)
  end.

(** Lines 465-479. *)
Definition onUnmounted : M unit :=
  c <- get ;;
  emit (EvEmitUpdateLoading false) ;;
  when (onLoadingChange c) (emit (EvLoadingChange false)) ;;
  (* Destroy masonry if it exists *)
  destroyMasonry.

(** ** Array helpers, as JavaScript defines them *)

(** [items.find((i) => i.id === fileId)] *)
Definition findById (fileId : Z) (l : list MasonryItem) : option MasonryItem :=
  List.find (fun i => Z.eqb (id i) fileId) l.

(** [items.findIndex(p)]: the first index whose element satisfies [p],
    or [-1]. *)
Fixpoint findIndexFrom (p : MasonryItem -> bool) (k : Z) (l : list MasonryItem) : Z :=
  match l with
  | [] => (-1)%Z
  | x :: l' => if p x then k else findIndexFrom p (k + 1)%Z l'
  end.

Definition findIndexById (fileId : Z) (l : list MasonryItem) : Z :=
  findIndexFrom (fun i => Z.eqb (id i) fileId) 0%Z l.

(** The effective start of [Array.prototype.splice(start, ...)] on an array
    of length [len]: negative values count from the end, and the result is
    clamped to [0 .. len]. *)
Definition spliceStart (start len : Z) : Z :=
  if (start <? 0)%Z then Z.max (len + start) 0 else Z.min start len.

(** [l.splice(start, 0, x)] *)
Definition spliceInsert (start : Z) (x : MasonryItem) (l : list MasonryItem)
  : list MasonryItem :=
  let k := Z.to_nat (spliceStart start (Z.of_nat (List.length l))) in
  firstn k l ++ x :: skipn k l.

(** [l.splice(start, 1)] *)
Definition spliceDelete1 (start : Z) (l : list MasonryItem) : list MasonryItem :=
  let k := Z.to_nat (spliceStart start (Z.of_nat (List.length l))) in
  firstn k l ++ skipn (S k) l.

(** ** Reactions on tiles *)

(** [masonry.value.remove(item)]: the call, and its effect on the
    [v-model] list. *)
Definition vmodel (f : list MasonryItem -> list MasonryItem) : M unit :=
  fun c => mkRun (Ok tt) (apply_write (WItems (f (items c))) c) [].

Definition masonryRemoveCall (env : Env) (it : MasonryItem) : M unit :=
  emit (EvMasonryRemove it) ;;
  vmodel (masonryRemove env it).

(** The [removeItem] argument of [handleMasonryReaction]. *)
Inductive RemoveItem : Type :=
| RemoveFn      (* the closure built by handleAltClickReaction, lines 189-196 *)
| SlotRemove    (* the [remove] slot prop of Masonry, line 554 *)
| NoRemove.     (* a falsy argument *)

(** Lines 189-196. *)
Definition removeFn (env : Env) (itemToRemove : MasonryItem) : M unit :=
  c <- get ;;
  match masonry c with
  | Some _ =>
      match findById (id itemToRemove) (items c) with
      | Some masonryItem => masonryRemoveCall env masonryItem
      | None => ret tt
      end
  | None => ret tt
  end.

Definition callRemoveItem (env : Env) (r : RemoveItem) (it : MasonryItem) : M unit :=
  match r with
  | RemoveFn => removeFn env it
  | SlotRemove => masonryRemoveCall env it
  | NoRemove => ret tt
  end.

(** Lines 213-242: the body of the [restoreItem] closure. *)
Definition restoreItem (r : RestoreItem) (restoreTabId : Z)
    (isTabActive : Z -> bool) : M unit :=
  let item := captured_item r in
  let itemIndex := captured_index r in
  (* Only restore if the tab is active *)
  let tabActive := isTabActive restoreTabId in
  if negb tabActive then ret tt
  else
    c <- get ;;
    (* Check if item is already in the array (avoid duplicates) *)
    let existingIndex := findIndexById (id item) (items c) in
    if Z.eqb existingIndex (-1) then
      match masonry c with
      | Some m =>
          if has_restore m then emit (EvMasonryRestore item itemIndex)
          else if has_add m then emit (EvMasonryAdd item itemIndex)
          else if has_insert m then emit (EvMasonryInsert item itemIndex)
          else
            let clampedIndex := Z.min itemIndex (Z.of_nat (List.length (items c))) in
            write (WItems (spliceInsert clampedIndex item (items c))) ;;
            when (has_refreshLayout m)
              (emit EvNextTick ;;
               c' <- get ;;
               emit (EvRefreshLayout (items c')))
      | None =>
          let clampedIndex := Z.min itemIndex (Z.of_nat (List.length (items c))) in
          write (WItems (spliceInsert clampedIndex item (items c)))
      end
    else ret tt.

(** Lines 203-254. *)
Definition handleMasonryReaction (env : Env) (fileId : Z) (ty : ReactionType)
    (removeItem : RemoveItem) : M unit :=
  c <- get ;;
  let item := findById fileId (items c) in
  let itemIndex :=
    match item with
    | Some _ => findIndexById fileId (items c)
    | None => (-1)%Z
    end in
  let tabId := option_map tab_id (tab c) in
  let restore :=
    match item, tabId with
    | Some it, Some _ =>
        if negb (Z.eqb itemIndex (-1)) then Some (mkRestore it itemIndex) else None
    | _, _ => None
    end in
  match item, removeItem with
  | Some _, NoRemove => ret tt
  | Some it, _ => callRemoveItem env removeItem it
  | None, _ => ret tt
  end ;;
  (* Queue the AJAX request with restore callback, tab ID, index, and item *)
  let previewUrl := option_map src item in
  emit (EvQueueReaction fileId ty previewUrl restore tabId itemIndex item) ;;
  (* Emit to parent *)
  emit (EvOnReaction fileId ty).

(** ** Mouse input on the masonry container *)

(** The DOM events the template binds on the container (line 514). *)
Inductive EventType : Type := click | contextmenu | mousedown.

(** The [data-item-id] attribute of a tile, as the code reads it:
    missing or empty ([!itemId]), or the outcome of [Number(itemId)]. *)
Inductive ItemIdAttr : Type :=
| NoItemId
| ItemIdNaN
| ItemIdNumber (n : Z).

(** The nearest [.masonry-item] element: its id attribute and, when it
    holds an [img], that image's
    [currentSrc || getAttribute('src') || '']. *)
Record Tile : Type := mkTile {
  dataItemId : ItemIdAttr;
  img : option string
}.

Inductive Target : Type :=
| NoTarget                 (* e.target is null *)
| OutsideTiles             (* closest('.masonry-item') is null or outside the container *)
| OnTile (t : Tile).

Record MouseEvent : Type := mkMouse {
  e_type : EventType;
  altKey : bool;
  button : Z;
  target : Target
}.

(** [s.split(ch)[0]] *)
Fixpoint beforeChar (ch : ascii) (s : string) : string :=
  match s with
  | EmptyString => EmptyString
  | String a s' => if Ascii.eqb a ch then EmptyString else String a (beforeChar ch s')
  end.

(** [s.split('?')[0].split('#')[0]] *)
Definition baseOf (s : string) : string :=
  beforeChar "#"%char (beforeChar "?"%char s).

(** [s.includes(sub)] *)
Fixpoint includes (s sub : string) : bool :=
  String.prefix sub s ||
  match s with
  | EmptyString => false
  | String _ s' => includes s' sub
  end.

(** Lines 147-151: the fallback lookup by image source. *)
Definition findBySrc (imgSrc : string) (l : list MasonryItem) : option MasonryItem :=
  List.find
    (fun i =>
       let itemSrc := baseOf (src i) in
       let baseSrc := baseOf imgSrc in
       String.eqb baseSrc itemSrc || includes baseSrc itemSrc || includes itemSrc baseSrc)
    l.

(** Lines 170-183: the reaction chosen for the pressed button. *)
Definition reactionTypeFor (e : MouseEvent) : option ReactionType :=
  (* ALT + Left Click = Like *)
  if Z.eqb (button e) 0
     || (match e_type e with click => true | _ => false end && Z.eqb (button e) 0)
  then Some like
  (* ALT + Right Click = Dislike *)
  else if Z.eqb (button e) 2
          || match e_type e with contextmenu => true | _ => false end
  then Some dislike
  (* ALT + Middle Click = Favorite (Love) *)
  else if Z.eqb (button e) 1 then Some love
  else None.

(** Lines 165-200. *)
Definition handleAltClickReaction (env : Env) (e : MouseEvent) (fileId : Z) : M unit :=
  (* Prevent default behavior and stop propagation *)
  emit EvPreventDefault ;;
  emit EvStopPropagation ;;
  match reactionTypeFor e with
  | Some ty =>
      c <- get ;;
      match findById fileId (items c) with
      | Some _ => handleMasonryReaction env fileId ty RemoveFn
      | None => ret tt
      end
  | None => ret tt
  end.

(** Lines 129-163. *)
Definition handleAltClickOnMasonry (env : Env) (e : MouseEvent) : M unit :=
  c <- get ;;
  if negb (masonryContainer c) then ret tt
  else
    match target e with
    | NoTarget => ret tt
    | OutsideTiles => ret tt
    | OnTile itemEl =>
        match dataItemId itemEl with
        | NoItemId =>
            (* Fallback: try to find by image src *)
            match img itemEl with
            | Some imgSrc =>
                match findBySrc imgSrc (items c) with
                | Some it => handleAltClickReaction env e (id it)
                | None => ret tt
                end
            | None => ret tt
            end
        | ItemIdNaN => ret tt
        | ItemIdNumber fileId => handleAltClickReaction env e fileId
        end
    end.

(** Lines 109-120. *)
Definition onMasonryClick (env : Env) (e : MouseEvent) : M unit :=
  (* Check for ALT + mouse button combinations for quick reactions *)
  if altKey e then handleAltClickOnMasonry env e
  else
    (* Normal click behavior - open overlay (only for left click) *)
    if Z.eqb (button e) 0
       || (match e_type e with click => true | _ => false end && Z.eqb (button e) 0)
    then
      c <- get ;;
      when (fileViewer c) (emit EvOpenFromClick)
    else ret tt.

(** Lines 122-127. *)
Definition onMasonryMouseDown (env : Env) (e : MouseEvent) : M unit :=
  (* Handle ALT + Middle Click (mousedown event needed for middle button) *)
  if altKey e && Z.eqb (button e) 1 then handleAltClickOnMasonry env e
  else ret tt.

(** Line 514: [@click="onMasonryClick"],
    [@contextmenu.prevent="onMasonryClick"],
    [@mousedown="onMasonryMouseDown"]. *)
Definition dispatch (env : Env) (e : MouseEvent) : M unit :=
  match e_type e with
  | click => onMasonryClick env e
  | contextmenu => emit EvPreventDefault ;; onMasonryClick env e
  | mousedown => onMasonryMouseDown env e
  end.

(** ** The [remove-from-masonry] prop of the FileViewer (lines 574-592)

    This arrow function is a template expression.  In a template a ref is
    already unwrapped: the same expression reads [items.find] and
    [items.splice], and line 573 reads [masonry?.isLoading].  So
    [masonry.value] is the property [value] of what the ref holds: reading
    it throws a [TypeError] when the ref holds [null], and gives
    [undefined] when it holds the Masonry instance, which has no such
    property.  The branch that calls [masonry.remove] is never entered, and
    the removal is done by the splice that the source calls a backup. *)

Definition nullValueError : string :=
  "TypeError: Cannot read properties of null (reading 'value')".

Definition removeFromMasonry (item : MasonryItem) : M unit :=
  (* Use masonry instance method to remove item *)
  c <- get ;;
  match masonry c with
  | None => throw nullValueError     (* masonry is null: null.value *)
  | Some _ => ret tt                 (* masonry.value is undefined: branch skipped *)
  end ;;
  (* Always ensure item is removed from items array as a backup *)
  c' <- get ;;
  let itemIndex := findIndexById (id item) (items c') in
  if negb (Z.eqb itemIndex (-1))
  then write (WItems (spliceDelete1 itemIndex (items c')))
  else ret tt.

(** ** Vocabulary of the statements *)

(** [pageFromQuery !== undefined && pageFromQuery !== null ? pageFromQuery : 1] *)
Definition pageValue (t : BrowseTabData) : JsVal :=
  if present (query page t) then query page t else JNum 1.

(** [nextFromQuery !== undefined && nextFromQuery !== null ? nextFromQuery : null] *)
Definition nextValue (t : BrowseTabData) : JsVal :=
  if present (query next t) then query next t else JNull.

(** What [tab.itemsData] holds once the reload block has run. *)
Definition reloadedItems (env : Env) (t : BrowseTabData) : list MasonryItem :=
  if nonempty (fileIds t) then
    match loadTabItems env (tab_id t) with
    | Resolved l => l
    | Rejected _ => []
    end
  else [].

Definition isNil {A : Type} (l : list A) : bool :=
  match l with
  | [] => true
  | _ :: _ => false
  end.

Definition loadTrigger (env : Env) (t : BrowseTabData) : JsVal :=
  if negb (isNil (reloadedItems env t)) then JNull
  else if nonempty_string (query service t) then pageValue t
  else JNull.

Definition tabHasRestorableItems (t : BrowseTabData) : bool :=
  nonempty (fileIds t) || nonempty (itemsData t).

(** The calls made by the destroy block. *)
Definition destroyTrace (m : option MasonryInstance) : list Event :=
  match m with
  | Some i => (if isLoading i then [EvCancelLoad] else []) ++ [EvDestroy]
  | None => []
  end.

Definition teardownTrace (c : Component) : list Event :=
  (if fileViewer c then [EvFileViewerClose] else []) ++ destroyTrace (masonry c).

Definition reloadTrace (env : Env) (t : BrowseTabData) (notify : bool) : list Event :=
  if nonempty (fileIds t) then
    (if notify then [EvTabDataLoadingChange true] else []) ++
    EvLoadTabItems (tab_id t) ::
    match loadTabItems env (tab_id t) with
    | Resolved l => [EvWrite (WTabItemsData l)]
    | Rejected _ => [EvConsoleError "Failed to load tab items:"; EvWrite (WTabItemsData [])]
    end ++
    (if notify then [EvTabDataLoadingChange false] else [])
  else [EvWrite (WTabItemsData [])].

Definition installTrace (env : Env) (t : BrowseTabData) (notify : bool) : list Event :=
  [ EvWrite (WIsTabRestored (tabHasRestorableItems t));
    EvWrite (WSelectedService (js_or (query service t) (JStr "")));
    EvWrite (WPendingRestoreNextCursor
               (if tabHasRestorableItems t then nullish_or (query next t) JNull else JNull)) ]
  ++ reloadTrace env t notify
  ++ [ EvWrite (WCurrentPage (pageValue t));
       EvWrite (WNextCursor (nextValue t));
       EvWrite (WLoadAtPage (loadTrigger env t));
       EvWrite (WItems []);
       EvNextTick ].

Definition installedState (env : Env) (t : BrowseTabData) (c : Component) : Component :=
  apply_write (WItems [])
    (apply_write (WLoadAtPage (loadTrigger env t))
       (apply_write (WNextCursor (nextValue t))
          (apply_write (WCurrentPage (pageValue t))
             (apply_write (WTabItemsData (reloadedItems env t))
                (apply_write
                   (WPendingRestoreNextCursor
                      (if tabHasRestorableItems t
                       then nullish_or (query next t) JNull else JNull))
                   (apply_write (WSelectedService (js_or (query service t) (JStr "")))
                      (apply_write (WIsTabRestored (tabHasRestorableItems t)) c))))))).

(** [n] rounds of the polling loop. *)
Fixpoint polls (n : nat) : list Event :=
  match n with
  | O => []
  | S n' => EvNextTick :: EvSetTimeout 50 :: polls n'
  end.

Definition initTrace (env : Env) (t : BrowseTabData) (retries : nat)
    (m : option MasonryInstance) : list Event :=
  polls retries ++
  match m with
  | Some _ =>
      EvWrite (WCurrentPage (pageValue t)) ::
      (if present (nextValue t) then [EvWrite (WNextCursor (nextValue t))] else []) ++
      [ EvMasonryInit (reloadedItems env t) (pageValue t) (nextValue t);
        EvNextTick;
        EvScheduleRefreshLayout ]
  | None => []
  end.

(** Classifiers of events. *)
Definition isTeardown (e : Event) : bool :=
  match e with
  | EvFileViewerClose | EvCancelLoad | EvDestroy => true
  | _ => false
  end.

Definition isInstall (e : Event) : bool :=
  match e with
  | EvWrite _ | EvMasonryInit _ _ _ | EvLoadTabItems _ => true
  | _ => false
  end.

Definition isTabDataLoadingChange (e : Event) : bool :=
  match e with
  | EvTabDataLoadingChange _ => true
  | _ => false
  end.

Definition isRestoredWrite (e : Event) : bool :=
  match e with
  | EvWrite (WIsTabRestored _) => true
  | _ => false
  end.

Definition isTimeout (e : Event) : bool :=
  match e with
  | EvSetTimeout _ => true
  | _ => false
  end.

Definition isRefreshLayout (e : Event) : bool :=
  match e with
  | EvRefreshLayout _ => true
  | _ => false
  end.

Definition isOpenFromClick (e : Event) : bool :=
  match e with
  | EvOpenFromClick => true
  | _ => false
  end.

(** The reactions handed to the queue, in order. *)
Definition queued (tr : list Event) : list (Z * ReactionType) :=
  flat_map (fun e => match e with
                     | EvQueueReaction fileId ty _ _ _ _ _ => [(fileId, ty)]
                     | _ => []
                     end) tr.

(** The list without its first entry of the given id. *)
Fixpoint removeFirstById (fileId : Z) (l : list MasonryItem) : list MasonryItem :=
  match l with
  | [] => []
  | x :: l' => if Z.eqb (id x) fileId then l' else x :: removeFirstById fileId l'
  end.

(** [l] with [x] put at position [k]. *)
Definition insertAt (k : nat) (x : MasonryItem) (l : list MasonryItem) : list MasonryItem :=
  firstn k l ++ x :: skipn k l.

(** The contract assumed of [masonry.remove(item)]: the [v-model] list is
    either already updated when the call returns (without the first entry
    of that id) or not yet touched. *)
Definition removeContract (env : Env) : Prop :=
  forall (x : MasonryItem) (l : list MasonryItem),
    masonryRemove env x l = l \/ masonryRemove env x l = removeFirstById (id x) l.

(** The restore rule read without the capability preference: whenever the
    tab is active and the item is absent, the callback itself reinserts the
    item at the clamped index and requests a reflow. *)
Definition restoreAlwaysReinsertsAndReflows : Prop :=
  forall (r : RestoreItem) (restoreTabId : Z) (isTabActive : Z -> bool) (c : Component),
    (0 <= captured_index r)%Z ->
    isTabActive restoreTabId = true ->
    findById (id (captured_item r)) (items c) = None ->
    let run := restoreItem r restoreTabId isTabActive c in
    items (final run) =
      insertAt (Nat.min (Z.to_nat (captured_index r)) (List.length (items c)))
        (captured_item r) (items c) /\
    existsb isRefreshLayout (trace run) = true.

(** ** Concrete inputs *)

Module Inputs.
Local Open Scope Z_scope.

Definition item (n : Z) : MasonryItem :=
  mkItem n 300 400 "test.jpg" "image" false.

Definition mounted : MasonryInstance := mkMasonry false false false false true.

Definition loading : MasonryInstance := mkMasonry true false false false true.

(** A freshly created component: the initial values of the refs. *)
Definition fresh (t : option BrowseTabData) : Component :=
  mkComponent t true true [] None true true (JNum 1) JNull JNull false JNull
    (JStr "").

(** The tab of the cursor-fidelity example of the specification. *)
Definition cursorTab : BrowseTabData :=
  mkTab 1 (Some (mkQuery (JStr "civit-ai-images") (JStr "cursor-x") (JStr "cursor-y")))
    (Some [1; 2]) None.

(** A new tab: nothing persisted, no service. *)
Definition newTab : BrowseTabData :=
  mkTab 2 (Some (mkQuery JUndefined JUndefined JUndefined)) (Some []) (Some []).

Definition serves (l : list MasonryItem) (mountedAfter : nat) : Env :=
  mkEnv (fun _ => Resolved l)
        (fun k => if Nat.leb mountedAfter k then Some mounted else None)
        (fun _ l => l).

(** A mounted gallery showing items 1 and 2. *)
Definition gallery : Component :=
  mkComponent (Some cursorTab) true true [item 1; item 2] (Some mounted)
    true true (JNum 1) JNull JNull false JNull (JStr "civit-ai-images").

(** A [contextmenu] event with ALT held whose [button] is [0], the value
    the event carries when the menu is not asked for with the secondary
    button (from the keyboard, or [new MouseEvent('contextmenu')] without a
    [button]), on the tile of item 1. *)
Definition altContextMenuPrimary : MouseEvent :=
  mkMouse contextmenu true 0 (OnTile (mkTile (ItemIdNumber 1) (Some "test.jpg"%string))).

Definition failing : Env :=
  mkEnv (fun _ => Rejected "network") (fun _ => None) (fun _ l => l).

End Inputs.

(** ** The rest of the component *)

(** Lines 257-280: [restoreToMasonry], the restore path handed to the
    FileViewer.  The Masonry instance is an argument here. *)
Definition restoreToMasonry (item : MasonryItem) (index : Z)
    (masonryInstance : option MasonryInstance) : M unit :=
  c <- get ;;
  (* Restore item to masonry at original index *)
  let existingIndex := findIndexById (id item) (items c) in
  if Z.eqb existingIndex (-1) then
    match masonryInstance with
    | Some m =>
        (* Try to use masonry's restore method if available *)
        if has_restore m then emit (EvMasonryRestore item index)
        else if has_add m then emit (EvMasonryAdd item index)
        else if has_insert m then emit (EvMasonryInsert item index)
        else
          (* Fallback: manually insert at original index and refresh layout *)
          let clampedIndex := Z.min index (Z.of_nat (List.length (items c))) in
          write (WItems (spliceInsert clampedIndex item (items c))) ;;
          when (has_refreshLayout m)
            (emit EvNextTick ;;
             c' <- get ;;
             emit (EvRefreshLayout (items c')))
    | None =>
        let clampedIndex := Z.min index (Z.of_nat (List.length (items c))) in
        write (WItems (spliceInsert clampedIndex item (items c)))
    end
  else ret tt.

(** Line 68: [displayPage = computed(() => currentPage.value ?? 1)]. *)
Definition displayPage (c : Component) : JsVal :=
  nullish_or (currentPage c) (JNum 1).

(** Lines 71-73: [props.tab?.queryParams?.service]. *)
Definition currentTabService (c : Component) : JsVal :=
  match tab c with
  | Some t => query service t
  | None => JUndefined
  end.

(** Lines 76-79. *)
Definition hasServiceSelected (c : Component) : bool :=
  nonempty_string (currentTabService c).

(** [a === b] on the values above (numbers here are never NaN). *)
Definition strictEq (a b : JsVal) : bool :=
  match a, b with
  | JUndefined, JUndefined => true
  | JNull, JNull => true
  | JNum n, JNum m => Z.eqb n m
  | JStr s, JStr s' => String.eqb s s'
  | _, _ => false
  end.

(** Line 503, the [disabled] binding of the Apply button:
    [!selectedService || isApplyingService || selectedService === currentTabService]. *)
Definition applyDisabled (isApplyingService : bool) (c : Component) : bool :=
  negb (truthy (selectedService c)) || isApplyingService
  || strictEq (selectedService c) (currentTabService c).

(** Line 573, the [has-more] prop of the FileViewer: [nextCursor !== null]. *)
Definition hasMore (c : Component) : bool :=
  match nextCursor c with
  | JNull => false
  | _ => true
  end.

(** Lines 301-307: [handleCarouselLoadMore].  Its only effect is the call
    [masonry.value.loadNext()]; the result tells whether that call is made.
    [hasLoadNext] is [typeof masonry.value.loadNext === 'function']. *)
Definition handleCarouselLoadMore (hasLoadNext : bool) (c : Component) : bool :=
  match masonry c with
  | Some m => hasMore c && negb (isLoading m) && hasLoadNext
  | None => false
  end.

(** Lines 321-325: [onMounted]. *)
Definition onMounted (env : Env) : M unit :=
  c <- get ;;
  match tab c with
  | Some _ => initializeTab env
  | None => ret tt
  end.

(** Lines 329-337: the watcher on [props.tab?.id]; [newId] and [oldId] are
    [None] for [undefined]. *)
Definition onTabIdChange (env : Env) (newId oldId : option Z) : M unit :=
  c <- get ;;
  match newId with
  | Some n =>
      (* Only re-initialize if tab ID actually changed and tab exists *)
      if negb (Z.eqb n 0)
         && negb (match oldId with Some o => Z.eqb n o | None => false end)
         && match tab c with Some _ => true | None => false end
      then initializeTab env
      else ret tt
  | None => ret tt
  end.

(** Unmounting, as the renderer does it.  The subtree is unmounted first,
    and that resets the template refs of the component ([masonry],
    [fileViewer], [masonryContainer]) to [null]; the [onUnmounted] hook
    (lines 465-479) runs only afterwards. *)
Definition clearTemplateRefs : M unit :=
  fun c =>
    mkRun (Ok tt)
      (mkComponent (tab c) (onTabDataLoadingChange c) (onLoadingChange c) (items c)
         None false false (currentPage c) (nextCursor c)
         (loadAtPage c) (isTabRestored c) (pendingRestoreNextCursor c)
         (selectedService c))
      [].

Definition unmount : M unit :=
  clearTemplateRefs ;;
  onUnmounted.

(** More classifiers of events. *)
Definition isOnReaction (e : Event) : bool :=
  match e with
  | EvOnReaction _ _ => true
  | _ => false
  end.

Definition isMasonryInit (e : Event) : bool :=
  match e with
  | EvMasonryInit _ _ _ => true
  | _ => false
  end.

Definition isMasonryRemove (e : Event) : bool :=
  match e with
  | EvMasonryRemove _ => true
  | _ => false
  end.

(** The instance offers none of [restore], [add], [insert], so that the
    restore paths fall back to splicing. *)
Definition splicesItself (m : option MasonryInstance) : bool :=
  match m with
  | Some i => negb (has_restore i) && negb (has_add i) && negb (has_insert i)
  | None => true
  end.

(** More concrete inputs. *)
Module Scenes.
Local Open Scope Z_scope.

(** [masonry.remove] has updated the [v-model] list when it returns. *)
Definition syncEnv : Env :=
  mkEnv (fun _ => Resolved [Inputs.item 1; Inputs.item 2]) (fun _ => Some Inputs.mounted)
    (fun x l => removeFirstById (id x) l).

Definition distinctGallery : NoDup (map id (items Inputs.gallery)).
Proof. cbn. repeat constructor; cbn; intuition discriminate. Defined.

Definition syncContract : removeContract syncEnv.
Proof. intros x l. right. reflexivity. Defined.

(** ALT held, on the tile of item 1. *)
Definition altOnTile (ty : EventType) (b : Z) : MouseEvent :=
  mkMouse ty true b (OnTile (mkTile (ItemIdNumber 1) None)).

End Scenes.

(** * Properties *)

(** ** Running the monad *)

Section Runs.
Context {A B : Type}.

Lemma bind_run (m : M A) (k : A -> M B) (c c1 c2 : Component) (a : A)
    (r : Result B) (tr1 tr2 : list Event) :
  m c = mkRun (Ok a) c1 tr1 ->
  k a c1 = mkRun r c2 tr2 ->
  bind m k c = mkRun r c2 (tr1 ++ tr2).
Proof.
  intros Hm Hk. unfold bind. rewrite Hm. cbn. rewrite Hk. reflexivity.
Qed.

Lemma get_bind_run (k : Component -> M B) (c : Component) :
  bind get k c = k c c.
Proof.
  unfold bind, get. cbn. destruct (k c c) as [r f t]. destruct r; reflexivity.
Qed.
End Runs.

Lemma get_run (c : Component) : get c = mkRun (Ok c) c [].
Proof. reflexivity. Qed.

Lemma write_run (w : Write) (c : Component) :
  write w c = mkRun (Ok tt) (apply_write w c) [EvWrite w].
Proof. reflexivity. Qed.

Lemma emit_run (e : Event) (c : Component) : emit e c = mkRun (Ok tt) c [e].
Proof. reflexivity. Qed.

Lemma when_emit_run (b : bool) (e : Event) (c : Component) :
  when b (emit e) c = mkRun (Ok tt) c (if b then [e] else []).
Proof. destruct b; reflexivity. Qed.

Lemma when_write_run (b : bool) (w : Write) (c : Component) :
  when b (write w) c =
  mkRun (Ok tt) (if b then apply_write w c else c) (if b then [EvWrite w] else []).
Proof. destruct b; reflexivity. Qed.

(** Stepping through a sequence: run the head with a known outcome, go on
    with the continuation. *)
Ltac step H := eapply bind_run; [apply H|]; cbn beta.

(** ** The blocks of [initializeTab] *)

Lemma destroyMasonry_run (c : Component) :
  destroyMasonry c = mkRun (Ok tt) c (destroyTrace (masonry c)).
Proof.
  unfold destroyMasonry, destroyTrace. rewrite get_bind_run.
  destruct (masonry c) as [i|]; [|reflexivity].
  destruct (isLoading i); reflexivity.
Qed.

Lemma reloadItems_run (env : Env) (t : BrowseTabData) (c : Component) :
  reloadItems env t c =
  mkRun (Ok tt) (apply_write (WTabItemsData (reloadedItems env t)) c)
    (reloadTrace env t (onTabDataLoadingChange c)).
Proof.
  unfold reloadItems, reloadedItems, reloadTrace. rewrite get_bind_run.
  destruct (nonempty (fileIds t)); [|reflexivity].
  generalize (onTabDataLoadingChange c); intros notify.
  destruct notify, (loadTabItems env (tab_id t)); reflexivity.
Qed.

Lemma restorePage_run (t : BrowseTabData) (c : Component) :
  (if present (query page t)
   then write (WCurrentPage (query page t))
   else write (WCurrentPage (JNum 1))) c =
  mkRun (Ok tt) (apply_write (WCurrentPage (pageValue t)) c)
    [EvWrite (WCurrentPage (pageValue t))].
Proof. unfold pageValue. destruct (present (query page t)); reflexivity. Qed.

Lemma restoreNext_run (t : BrowseTabData) (c : Component) :
  (if present (query next t)
   then write (WNextCursor (query next t))
   else write (WNextCursor JNull)) c =
  mkRun (Ok tt) (apply_write (WNextCursor (nextValue t)) c)
    [EvWrite (WNextCursor (nextValue t))].
Proof. unfold nextValue. destruct (present (query next t)); reflexivity. Qed.

Lemma setLoadAtPage_run (hasItems : bool) (t : BrowseTabData) (c : Component) :
  (if hasItems then
     write (WLoadAtPage JNull) ;; write (WItems [])
   else if nonempty_string (query service t) then
     (if present (query page t)
      then write (WLoadAtPage (query page t))
      else write (WLoadAtPage (JNum 1))) ;;
     write (WItems [])
   else
     write (WLoadAtPage JNull) ;; write (WItems [])) c =
  let v := if hasItems then JNull
           else if nonempty_string (query service t) then pageValue t else JNull in
  mkRun (Ok tt) (apply_write (WItems []) (apply_write (WLoadAtPage v) c))
    [EvWrite (WLoadAtPage v); EvWrite (WItems [])].
Proof.
  unfold pageValue.
  destruct hasItems, (nonempty_string (query service t)), (present (query page t));
    reflexivity.
Qed.

Lemma present_pageValue (t : BrowseTabData) : present (pageValue t) = true.
Proof.
  unfold pageValue. destruct (present (query page t)) eqn:E; [exact E | reflexivity].
Qed.

Lemma observe_masonry_same (c : Component) : observe_masonry (masonry c) c = c.
Proof. destruct c; reflexivity. Qed.

(** ** The polling loop *)

Lemma waitForMasonry_spec (env : Env) (retries : nat) (c : Component) :
  exists r' m',
    waitForMasonry env retries c = (r', observe_masonry m' c, polls (r' - retries)) /\
    retries <= r' /\
    (retries <= 20 -> r' <= 20) /\
    (m' = None -> 20 <= r') /\
    (r' = retries -> m' = masonry c) /\
    (retries < r' -> m' = masonryAt env r').
Proof.
  funelim (waitForMasonry env retries c).
  - exists retries, (masonry c).
    rewrite observe_masonry_same, Nat.sub_diag.
    repeat split; auto; try congruence; lia.
  - destruct H as (r' & m' & Hrun & Hle & Hmax & Hnone & Hsame & Hlater).
    exists r', m'. rewrite Hrun. cbn [observe_masonry].
    replace (r' - retries) with (S (r' - S retries)) by lia.
    repeat split; auto; try lia.
    intros _. destruct (Nat.eq_dec r' (S retries)) as [E|E].
    + rewrite (Hsame E), E. reflexivity.
    + apply Hlater. lia.
  - exists retries, (masonry c).
    rewrite observe_masonry_same, Nat.sub_diag.
    repeat split; auto; lia.
Qed.

Lemma pollMasonry_run (env : Env) (c : Component) :
  exists r' m',
    pollMasonry env c = mkRun (Ok r') (observe_masonry m' c) (polls r') /\
    r' <= 20 /\
    (m' = None -> r' = 20) /\
    (r' = 0 -> m' = masonry c).
Proof.
  destruct (waitForMasonry_spec env 0 c) as (r' & m' & Hrun & _ & Hmax & Hnone & Hsame & _).
  exists r', m'. unfold pollMasonry. rewrite Hrun, Nat.sub_0_r.
  specialize (Hmax (Nat.le_0_l _)).
  split; [reflexivity|]. split; [exact Hmax|]. split; [|exact Hsame].
  intros Hm. specialize (Hnone Hm). lia.
Qed.

Lemma tabHasItems_reloaded (l : list MasonryItem) (t : BrowseTabData) (c : Component) :
  tab c = Some t ->
  tabHasItems (apply_write (WTabItemsData l) c) = negb (isNil l).
Proof.
  intros Ht. unfold tabHasItems. cbn. rewrite Ht. cbn. destruct l; reflexivity.
Qed.

Lemma tabHasItems_write (w : Write) (c : Component) :
  match w with WTabItemsData _ => False | _ => True end ->
  tabHasItems (apply_write w c) = tabHasItems c.
Proof. destruct w; intros H; try reflexivity. destruct H. Qed.

Lemma nextTickAfterInstall_run (env : Env) (c : Component) :
  nextTickAfterInstall env c =
  mkRun (Ok tt) (observe_masonry (masonryAt env 0) c) [EvNextTick].
Proof. reflexivity. Qed.

Lemma tabHasItems_installed (env : Env) (t : BrowseTabData) (c : Component)
    (m : option MasonryInstance) :
  tab c = Some t ->
  tabHasItems (observe_masonry m (installedState env t c)) =
  negb (isNil (reloadedItems env t)).
Proof.
  intros Ht. unfold tabHasItems. cbn. rewrite Ht. cbn.
  destruct (reloadedItems env t); reflexivity.
Qed.

Lemma tabItemsData_installed (env : Env) (t : BrowseTabData) (c : Component)
    (m : option MasonryInstance) :
  tab c = Some t ->
  tabItemsData (observe_masonry m (installedState env t c)) = reloadedItems env t.
Proof. intros Ht. unfold tabItemsData. cbn. rewrite Ht. reflexivity. Qed.

Lemma rewrite_pagination (t : BrowseTabData) (c : Component) :
  currentPage c = pageValue t ->
  nextCursor c = nextValue t ->
  (if present (nextValue t)
   then apply_write (WNextCursor (nextValue t)) (apply_write (WCurrentPage (pageValue t)) c)
   else apply_write (WCurrentPage (pageValue t)) c) = c.
Proof.
  intros Hp Hn. rewrite <- Hp, <- Hn. destruct c. cbn.
  destruct (present nextCursor0); reflexivity.
Qed.

(** The init block, run from a state whose pagination refs already hold the
    restored values. *)
Lemma initWithPreloadedItems_run (env : Env) (t : BrowseTabData) (c : Component) :
  currentPage c = pageValue t ->
  nextCursor c = nextValue t ->
  exists retries m',
    retries <= 20 /\
    (tabHasItems c = true -> m' = None -> retries = 20) /\
    initWithPreloadedItems env (query page t) (query next t) c =
    mkRun (Ok tt) (observe_masonry m' c)
      (if tabHasItems c
       then polls retries ++
            match m' with
            | Some _ =>
                EvWrite (WCurrentPage (pageValue t)) ::
                (if present (nextValue t)
                 then [EvWrite (WNextCursor (nextValue t))] else []) ++
                [ EvMasonryInit (tabItemsData c) (pageValue t) (nextValue t);
                  EvNextTick;
                  EvScheduleRefreshLayout ]
            | None => []
            end
       else []).
Proof.
  intros Hp Hn.
  destruct (pollMasonry_run env c) as (r' & m' & Hpoll & Hmax & Hnone & _).
  unfold initWithPreloadedItems. rewrite get_bind_run.
  destruct (tabHasItems c).
  - exists r', m'. split; [exact Hmax|]. split; [intros _; exact Hnone|].
    destruct m' as [i|].
    + eapply eq_trans.
      * step Hpoll. step get_run.
        change (masonry (observe_masonry (Some i) c)) with (Some i). cbv iota zeta.
        fold (pageValue t). fold (nextValue t). rewrite present_pageValue.
        step when_write_run. step when_write_run. step emit_run. step emit_run.
        apply emit_run.
      * f_equal. apply (rewrite_pagination t (observe_masonry (Some i) c) Hp Hn).
    + eapply eq_trans.
      * step Hpoll. step get_run. reflexivity.
      * reflexivity.
  - exists 0, (masonry c). split; [lia|]. split; [discriminate|].
    rewrite observe_masonry_same. reflexivity.
Qed.

Lemma initializeTab_run (env : Env) (c : Component) (t : BrowseTabData) :
  tab c = Some t ->
  exists retries m',
    retries <= 20 /\
    (isNil (reloadedItems env t) = false -> m' = None -> retries = 20) /\
    initializeTab env c =
    mkRun (Ok tt)
      (apply_write (WIsTabRestored false) (observe_masonry m' (installedState env t c)))
      (teardownTrace c ++
       installTrace env t (onTabDataLoadingChange c) ++
       (if isNil (reloadedItems env t) then [] else initTrace env t retries m') ++
       [EvWrite (WIsTabRestored false)]).
Proof.
  intros Ht.
  set (c2 := observe_masonry (masonryAt env 0) (installedState env t c)).
  destruct (initWithPreloadedItems_run env t c2 eq_refl eq_refl)
    as (r' & m' & Hmax & Hnone & Hinit).
  unfold c2 in Hinit, Hnone.
  rewrite (tabHasItems_installed env t c _ Ht), (tabItemsData_installed env t c _ Ht) in Hinit.
  rewrite (tabHasItems_installed env t c _ Ht) in Hnone.
  exists r', m'. split; [exact Hmax|]. split.
  { intros Hnil. apply Hnone. rewrite Hnil. reflexivity. }
  unfold initializeTab. rewrite get_bind_run, Ht.
  eapply eq_trans.
  - step when_emit_run. step destroyMasonry_run.
    step write_run. step write_run. step write_run.
    step reloadItems_run. step restorePage_run. step restoreNext_run.
    step get_run.
    rewrite !tabHasItems_write by exact I.
    rewrite (tabHasItems_reloaded _ t) by exact Ht.
    step setLoadAtPage_run. step nextTickAfterInstall_run.
    step Hinit. apply write_run.
  - unfold teardownTrace, installTrace, initTrace, loadTrigger, tabHasRestorableItems.
    f_equal. rewrite <- !app_assoc.
    destruct (isNil (reloadedItems env t)); reflexivity.
Qed.

Lemma initializeTab_no_tab (env : Env) (c : Component) :
  tab c = None -> initializeTab env c = mkRun (Ok tt) c [].
Proof. intros Ht. unfold initializeTab. rewrite get_bind_run, Ht. reflexivity. Qed.

(** ** Restored pagination state *)

(** C1.  After [initializeTab] has run for a tab, [currentPage] is the
    persisted [queryParams.page] itself whenever that token is present, be
    it a page number or a cursor string, and the first page [1] when it is
    absent; [nextCursor] is the persisted [queryParams.next] when present
    and [null] otherwise.  The call returns normally. *)
Theorem initializeTab_restores_page_token (env : Env) (c : Component) (t : BrowseTabData) :
  tab c = Some t ->
  let r := initializeTab env c in
  result r = Ok tt /\
  (present (query page t) = true -> currentPage (final r) = query page t) /\
  (present (query page t) = false -> currentPage (final r) = JNum 1) /\
  (present (query next t) = true -> nextCursor (final r) = query next t) /\
  (present (query next t) = false -> nextCursor (final r) = JNull).
Proof.
  intros Ht r. subst r.
  destruct (initializeTab_run env c t Ht) as (retries & m' & _ & _ & Hrun).
  rewrite Hrun. cbn. unfold pageValue, nextValue.
  split; [reflexivity|].
  repeat split; intros Hp; rewrite Hp; reflexivity.
Qed.

Lemma initializeTab_restores_page_token_witness :
  let r := initializeTab (Inputs.serves [Inputs.item 1; Inputs.item 2] 3)
             (Inputs.fresh (Some Inputs.cursorTab)) in
  currentPage (final r) = JStr "cursor-x" /\ nextCursor (final r) = JStr "cursor-y".
Proof.
  pose proof (initializeTab_restores_page_token
                (Inputs.serves [Inputs.item 1; Inputs.item 2] 3)
                (Inputs.fresh (Some Inputs.cursorTab)) Inputs.cursorTab eq_refl) as H.
  cbv zeta in H. destruct H as (_ & Hp & _ & Hn & _).
  split; [exact (Hp eq_refl) | exact (Hn eq_refl)].
Defined.

(** ** The initial load trigger *)

(** C4.  After [initializeTab], [loadAtPage] is [null] when the tab ended up
    with pre-loaded item snapshots and when no service is selected;
    otherwise it is the persisted page token when present and [1] when not. *)
Theorem initializeTab_loadAtPage (env : Env) (c : Component) (t : BrowseTabData) :
  tab c = Some t ->
  let r := initializeTab env c in
  let hasService := nonempty_string (query service t) in
  (tabHasItems (final r) = true -> loadAtPage (final r) = JNull) /\
  (hasService = false -> loadAtPage (final r) = JNull) /\
  (tabHasItems (final r) = false -> hasService = true ->
   loadAtPage (final r) =
   if present (query page t) then query page t else JNum 1).
Proof.
  intros Ht r hasService. subst r hasService.
  destruct (initializeTab_run env c t Ht) as (retries & m' & _ & _ & Hrun).
  rewrite Hrun.
  change (tabHasItems (final (mkRun (Ok tt)
            (apply_write (WIsTabRestored false)
               (observe_masonry m' (installedState env t c))) _)))
    with (tabHasItems (observe_masonry m' (installedState env t c))).
  rewrite (tabHasItems_installed env t c m' Ht).
  cbn. unfold loadTrigger, pageValue.
  destruct (isNil (reloadedItems env t)); cbn.
  - split; [discriminate|]. split; intros Hs; [rewrite Hs; reflexivity|].
    intros Hs'. rewrite Hs'. reflexivity.
  - split; [reflexivity|]. split; [reflexivity|discriminate].
Qed.

Lemma initializeTab_loadAtPage_witness :
  loadAtPage (final (initializeTab Inputs.failing (Inputs.fresh (Some Inputs.newTab))))
  = JNull.
Proof.
  pose proof (initializeTab_loadAtPage Inputs.failing
                (Inputs.fresh (Some Inputs.newTab)) Inputs.newTab eq_refl) as H.
  cbv zeta in H. destruct H as (_ & Hs & _). exact (Hs eq_refl).
Defined.

(** ** Filtering the trace of [initializeTab] *)

Section TraceFilters.
Variable f : Event -> bool.

Lemma filter_polls (n : nat) :
  f EvNextTick = false -> f (EvSetTimeout 50) = false -> filter f (polls n) = [].
Proof.
  intros Ht Hs. induction n as [|n IH]; [reflexivity|].
  cbn. rewrite Ht, Hs. exact IH.
Qed.

Lemma filter_teardown (c : Component) :
  f EvFileViewerClose = false -> f EvCancelLoad = false -> f EvDestroy = false ->
  filter f (teardownTrace c) = [].
Proof.
  intros Hc Hl Hd. unfold teardownTrace, destroyTrace.
  destruct (fileViewer c), (masonry c) as [i|]; [destruct (isLoading i)| |destruct (isLoading i)|];
    cbn; rewrite ?Hc, ?Hl, ?Hd; reflexivity.
Qed.
End TraceFilters.

(** ** Recovery from a failed item load *)

(** C5.  For a tab with a non-empty [fileIds], [initializeTab] returns
    normally whether [loadTabItems] resolves or rejects; after a rejection
    [tab.itemsData] is the empty list; and on both paths the parent is told
    that tab data loading started before the call and that it ended after
    it, whenever it passed [onTabDataLoadingChange]. *)
Theorem initializeTab_recovers_from_load_failure
    (env : Env) (c : Component) (t : BrowseTabData) :
  tab c = Some t ->
  nonempty (fileIds t) = true ->
  let r := initializeTab env c in
  result r = Ok tt /\
  (forall reason, loadTabItems env (tab_id t) = Rejected reason ->
                  option_map itemsData (tab (final r)) = Some (Some [])) /\
  (forall l, loadTabItems env (tab_id t) = Resolved l ->
             option_map itemsData (tab (final r)) = Some (Some l)) /\
  filter (fun e => isTabDataLoadingChange e ||
                   match e with EvLoadTabItems _ => true | _ => false end) (trace r) =
  if onTabDataLoadingChange c
  then [EvTabDataLoadingChange true; EvLoadTabItems (tab_id t); EvTabDataLoadingChange false]
  else [EvLoadTabItems (tab_id t)].
Proof.
  intros Ht Hids r. subst r.
  destruct (initializeTab_run env c t Ht) as (retries & m' & _ & _ & Hrun).
  rewrite Hrun. cbn [result final trace].
  split; [reflexivity|].
  split; [|split].
  - intros reason Hrej. cbn. rewrite Ht. unfold reloadedItems. rewrite Hids, Hrej.
    reflexivity.
  - intros l Hres. cbn. rewrite Ht. unfold reloadedItems. rewrite Hids, Hres.
    reflexivity.
  - rewrite !filter_app, filter_teardown by reflexivity.
    unfold installTrace, reloadTrace, initTrace. rewrite Hids.
    destruct (isNil (reloadedItems env t));
      rewrite ?filter_app, ?filter_polls by reflexivity;
      destruct (onTabDataLoadingChange c), (loadTabItems env (tab_id t)),
        m' as [i|], (present (nextValue t));
      reflexivity.
Qed.

Lemma initializeTab_recovers_from_load_failure_witness :
  let r := initializeTab Inputs.failing (Inputs.fresh (Some Inputs.cursorTab)) in
  result r = Ok tt /\
  option_map itemsData (tab (final r)) = Some (Some []).
Proof.
  pose proof (initializeTab_recovers_from_load_failure Inputs.failing
                (Inputs.fresh (Some Inputs.cursorTab)) Inputs.cursorTab
                eq_refl eq_refl) as H.
  cbv zeta in H. destruct H as (Hok & Hrej & _).
  split; [exact Hok | exact (Hrej "network"%string eq_refl)].
Defined.

(** ** The restoration flag *)

(** C8.  [initializeTab] leaves [isTabRestored] false on return, on every
    path, whenever a tab is given or the flag was false before the call.
    While it runs for a tab, the flag is assigned exactly twice: first the
    value "the tab has restorable items", and, as the very last step,
    [false]. *)
Theorem initializeTab_clears_isTabRestored (env : Env) (c : Component) :
  tab c <> None \/ isTabRestored c = false ->
  let r := initializeTab env c in
  result r = Ok tt /\
  isTabRestored (final r) = false /\
  (forall t, tab c = Some t ->
     filter isRestoredWrite (trace r) =
       [EvWrite (WIsTabRestored (nonempty (fileIds t) || nonempty (itemsData t)));
        EvWrite (WIsTabRestored false)] /\
     exists before, trace r = before ++ [EvWrite (WIsTabRestored false)]).
Proof.
  intros Hpre r. subst r.
  destruct (tab c) as [t|] eqn:Ht.
  - destruct (initializeTab_run env c t Ht) as (retries & m' & _ & _ & Hrun).
    rewrite Hrun. cbn [result final trace].
    split; [reflexivity|]. split; [reflexivity|].
    intros t' Ht'. injection Ht' as <-. split.
    + rewrite !filter_app, filter_teardown by reflexivity.
      unfold installTrace, reloadTrace, initTrace, tabHasRestorableItems.
      destruct (isNil (reloadedItems env t));
        rewrite ?filter_app, ?filter_polls by reflexivity;
        destruct (nonempty (fileIds t)), (onTabDataLoadingChange c),
          (loadTabItems env (tab_id t)), m' as [i|], (present (nextValue t));
        reflexivity.
    + eexists. rewrite !app_assoc. reflexivity.
  - rewrite (initializeTab_no_tab env c Ht). cbn [result final trace].
    split; [reflexivity|]. split.
    + destruct Hpre as [Hpre|Hpre]; [contradiction Hpre; reflexivity | exact Hpre].
    + intros t Ht'. discriminate Ht'.
Qed.

Lemma initializeTab_clears_isTabRestored_witness :
  isTabRestored
    (final (initializeTab Inputs.failing (Inputs.fresh (Some Inputs.cursorTab)))) = false.
Proof.
  pose proof (initializeTab_clears_isTabRestored Inputs.failing
                (Inputs.fresh (Some Inputs.cursorTab))
                (or_intror eq_refl)) as H.
  cbv zeta in H. destruct H as (_ & Hflag & _). exact Hflag.
Defined.

(** ** Teardown before installation *)

Lemma forallb_polls (f : Event -> bool) (n : nat) :
  f EvNextTick = true -> f (EvSetTimeout 50) = true -> forallb f (polls n) = true.
Proof.
  intros Ht Hs. induction n as [|n IH]; [reflexivity|].
  cbn. rewrite Ht, Hs. exact IH.
Qed.

Lemma installed_trace_has_no_teardown (env : Env) (t : BrowseTabData) (notify : bool)
    (retries : nat) (m' : option MasonryInstance) :
  forallb (fun e => negb (isTeardown e))
    (installTrace env t notify ++
     (if isNil (reloadedItems env t) then [] else initTrace env t retries m') ++
     [EvWrite (WIsTabRestored false)]) = true.
Proof.
  unfold installTrace, reloadTrace, initTrace.
  rewrite !forallb_app.
  destruct (isNil (reloadedItems env t));
    rewrite ?forallb_app, ?forallb_polls by reflexivity;
    destruct (nonempty (fileIds t)), notify, (loadTabItems env (tab_id t)),
      m' as [i|], (present (nextValue t));
    reflexivity.
Qed.

(** Re-initialisation tears down first.  With a Masonry instance behind
    the ref, [initializeTab] (for a tab) calls [cancelLoad] exactly when
    the instance reports [isLoading] and calls [destroy] in either case.
    The overlay is closed first, then come [cancelLoad] and [destroy], and
    only then everything else: no assignment to a ref, no item load and no
    [init] precedes [destroy], and no teardown call is repeated
    afterwards. *)
Lemma initializeTab_tears_down_first
    (env : Env) (c : Component) (t : BrowseTabData) (m : MasonryInstance) :
  tab c = Some t ->
  masonry c = Some m ->
  exists rest,
    trace (initializeTab env c) =
      (if fileViewer c then [EvFileViewerClose] else []) ++
      (if isLoading m then [EvCancelLoad] else []) ++
      EvDestroy :: rest /\
    forallb (fun e => negb (isTeardown e)) rest = true /\
    filter isInstall (trace (initializeTab env c)) = filter isInstall rest /\
    existsb isInstall rest = true.
Proof.
  intros Ht Hm.
  destruct (initializeTab_run env c t Ht) as (retries & m' & _ & _ & Hrun).
  rewrite Hrun. cbn [trace].
  eexists. split; [|split; [|split]].
  - unfold teardownTrace, destroyTrace. rewrite Hm.
    rewrite <- !app_assoc. cbn [app]. reflexivity.
  - apply installed_trace_has_no_teardown.
  - unfold teardownTrace, destroyTrace. rewrite Hm, !filter_app.
    destruct (fileViewer c), (isLoading m); reflexivity.
  - unfold installTrace. cbn. reflexivity.
Qed.

(** The hook itself, run on a state in which the ref still held an
    instance, would tear it down. *)
Lemma onUnmounted_with_instance (c : Component) (m : MasonryInstance) :
  masonry c = Some m ->
  trace (onUnmounted c) =
    EvEmitUpdateLoading false ::
    (if onLoadingChange c then [EvLoadingChange false] else []) ++
    (if isLoading m then [EvCancelLoad] else []) ++
    [EvDestroy].
Proof.
  intros Hm. unfold onUnmounted. rewrite get_bind_run.
  erewrite bind_run; [|apply emit_run|].
  2:{ eapply bind_run; [apply when_emit_run|apply destroyMasonry_run]. }
  cbn [trace]. unfold destroyTrace. rewrite Hm. reflexivity.
Qed.

(** C3 fails on the code at unmount.  When the component is unmounted the
    [masonry] ref has been reset before [onUnmounted] runs, so that the
    hook finds no instance: whatever instance there was, loading or not,
    neither [cancelLoad] nor [destroy] is called; the hook only reports
    that loading has ended.  This is so in particular for a component
    whose instance is loading. *)
Theorem unmount_never_destroys_masonry (c : Component) :
  unmount c =
  mkRun (Ok tt)
    (mkComponent (tab c) (onTabDataLoadingChange c) (onLoadingChange c) (items c)
       None false false (currentPage c) (nextCursor c)
       (loadAtPage c) (isTabRestored c) (pendingRestoreNextCursor c)
       (selectedService c))
    (EvEmitUpdateLoading false ::
     if onLoadingChange c then [EvLoadingChange false] else []) /\
  existsb isTeardown (trace (unmount c)) = false /\
  trace (unmount
           (mkComponent (Some Inputs.cursorTab) true true [Inputs.item 1]
              (Some Inputs.loading) true true (JNum 1) JNull JNull false JNull
              (JStr "civit-ai-images"))) =
  [EvEmitUpdateLoading false; EvLoadingChange false].
Proof.
  assert (Hrun : unmount c =
                 mkRun (Ok tt)
                   (mkComponent (tab c) (onTabDataLoadingChange c) (onLoadingChange c)
                      (items c) None false false (currentPage c) (nextCursor c)
                      (loadAtPage c) (isTabRestored c) (pendingRestoreNextCursor c)
                      (selectedService c))
                   (EvEmitUpdateLoading false ::
                    if onLoadingChange c then [EvLoadingChange false] else [])).
  { unfold unmount, clearTemplateRefs, onUnmounted, destroyMasonry.
    destruct (onLoadingChange c) eqn:Hcb; unfold bind, get, emit, when, ret; cbn;
      rewrite ?Hcb; reflexivity. }
  split; [exact Hrun|]. split; [|reflexivity].
  rewrite Hrun. cbn [trace]. destruct (onLoadingChange c); reflexivity.
Qed.

(** ** The polling loop is bounded *)

Lemma timeouts_of_polls (n : nat) : List.length (filter isTimeout (polls n)) = n.
Proof. induction n as [|n IH]; [reflexivity|]. cbn. rewrite IH. reflexivity. Qed.

Lemma never_mounted_polls_twenty (env : Env) (c : Component) :
  (forall k, masonryAt env k = None) ->
  masonry c = None ->
  fst (fst (waitForMasonry env 0 c)) = 20.
Proof.
  intros Hnever Hc.
  destruct (waitForMasonry_spec env 0 c)
    as (r' & m' & Hrun & _ & Hmax & Hnone & Hsame & Hlater).
  rewrite Hrun. cbn [fst].
  assert (Hm : m' = None).
  { destruct r' as [|r']; [rewrite (Hsame eq_refl); exact Hc|].
    rewrite (Hlater (Nat.lt_0_succ r')). apply Hnever. }
  specialize (Hnone Hm). specialize (Hmax (Nat.le_0_l _)). lia.
Qed.

(** C7.  The loop that waits for the Masonry instance runs at most 20
    rounds, each one [nextTick] and one 50 ms timer; it runs all 20 when the
    instance never appears.  Hence [initializeTab] returns in every
    environment, having set at most 20 timers. *)
Theorem masonry_polling_is_bounded (env : Env) (c : Component) :
  let w := waitForMasonry env 0 c in
  fst (fst w) <= 20 /\
  snd w = polls (fst (fst w)) /\
  ((forall k, masonryAt env k = None) -> masonry c = None -> fst (fst w) = 20) /\
  result (initializeTab env c) = Ok tt /\
  List.length (filter isTimeout (trace (initializeTab env c))) <= 20.
Proof.
  intros w. subst w.
  split; [|split; [|split; [|split]]].
  - destruct (waitForMasonry_spec env 0 c) as (r' & m' & Hrun & _ & Hmax & _).
    rewrite Hrun. cbn [fst]. apply Hmax, Nat.le_0_l.
  - destruct (waitForMasonry_spec env 0 c) as (r' & m' & Hrun & _).
    rewrite Hrun, Nat.sub_0_r. reflexivity.
  - apply never_mounted_polls_twenty.
  - destruct (tab c) as [t|] eqn:Ht.
    + destruct (initializeTab_run env c t Ht) as (retries & m' & _ & _ & Hrun).
      rewrite Hrun. reflexivity.
    + rewrite (initializeTab_no_tab env c Ht). reflexivity.
  - destruct (tab c) as [t|] eqn:Ht.
    + destruct (initializeTab_run env c t Ht) as (retries & m' & Hmax & _ & Hrun).
      rewrite Hrun. cbn [trace].
      rewrite !filter_app, filter_teardown by reflexivity.
      unfold installTrace, reloadTrace, initTrace.
      destruct (isNil (reloadedItems env t)).
      * destruct (nonempty (fileIds t)), (onTabDataLoadingChange c),
          (loadTabItems env (tab_id t)); cbn; lia.
      * rewrite !filter_app, !length_app, timeouts_of_polls.
        destruct (nonempty (fileIds t)), (onTabDataLoadingChange c),
          (loadTabItems env (tab_id t)), m' as [i|], (present (nextValue t));
          cbn; lia.
    + rewrite (initializeTab_no_tab env c Ht). cbn. lia.
Qed.

Lemma masonry_polling_is_bounded_witness :
  fst (fst (waitForMasonry Inputs.failing 0 (Inputs.fresh (Some Inputs.cursorTab)))) = 20.
Proof.
  exact (proj1 (proj2 (proj2 (masonry_polling_is_bounded Inputs.failing
                                (Inputs.fresh (Some Inputs.cursorTab)))))
           (fun _ => eq_refl) eq_refl).
Defined.

(** ** Array lookups *)

Lemma findIndexFrom_none (p : MasonryItem -> bool) (k : Z) (l : list MasonryItem) :
  List.find p l = None -> findIndexFrom p k l = (-1)%Z.
Proof.
  revert k. induction l as [|x l IH]; intros k Hf; [reflexivity|].
  cbn in *. destruct (p x); [discriminate|]. apply IH, Hf.
Qed.

Lemma findIndexFrom_some (fileId k : Z) (l : list MasonryItem) (x : MasonryItem) :
  findById fileId l = Some x ->
  exists n, findIndexFrom (fun i => Z.eqb (id i) fileId) k l = (k + Z.of_nat n)%Z /\
            n < List.length l /\
            nth_error l n = Some x /\
            firstn n l ++ skipn (S n) l = removeFirstById fileId l.
Proof.
  unfold findById. revert k. induction l as [|y l IH]; intros k Hf; [discriminate|].
  cbn in *. destruct (Z.eqb (id y) fileId) eqn:Hp.
  - injection Hf as ->. exists 0. cbn. repeat split; lia.
  - destruct (IH (k + 1)%Z Hf) as (n & Hidx & Hlen & Hnth & Hcut).
    exists (S n). cbn. rewrite Hcut. repeat split; [lia|lia|exact Hnth].
Qed.

Lemma findIndexById_absent (fileId : Z) (l : list MasonryItem) :
  findById fileId l = None -> findIndexById fileId l = (-1)%Z.
Proof. apply findIndexFrom_none. Qed.

Lemma findIndexById_present (fileId : Z) (l : list MasonryItem) (x : MasonryItem) :
  findById fileId l = Some x ->
  exists n, findIndexById fileId l = Z.of_nat n /\
            n < List.length l /\
            nth_error l n = Some x /\
            firstn n l ++ skipn (S n) l = removeFirstById fileId l.
Proof. apply (findIndexFrom_some fileId 0%Z). Qed.

Lemma findById_id (fileId : Z) (l : list MasonryItem) (x : MasonryItem) :
  findById fileId l = Some x -> id x = fileId.
Proof.
  intros Hf. apply find_some in Hf. destruct Hf as [_ Heq].
  apply Z.eqb_eq, Heq.
Qed.

Lemma spliceStart_in_range (k : nat) (len : nat) :
  k <= len -> Z.to_nat (spliceStart (Z.of_nat k) (Z.of_nat len)) = k.
Proof.
  intros Hk. unfold spliceStart.
  destruct (Z.ltb_spec (Z.of_nat k) 0); [lia|].
  rewrite Z.min_l by lia. apply Nat2Z.id.
Qed.

Lemma spliceInsert_clamped (idx : Z) (x : MasonryItem) (l : list MasonryItem) :
  (0 <= idx)%Z ->
  spliceInsert (Z.min idx (Z.of_nat (List.length l))) x l =
  insertAt (Nat.min (Z.to_nat idx) (List.length l)) x l.
Proof.
  intros Hidx. unfold spliceInsert, insertAt.
  replace (Z.min idx (Z.of_nat (List.length l)))
    with (Z.of_nat (Nat.min (Z.to_nat idx) (List.length l))) by lia.
  rewrite spliceStart_in_range by lia. reflexivity.
Qed.

Lemma removeFirstById_absent (fileId : Z) (l : list MasonryItem) :
  findById fileId l = None -> removeFirstById fileId l = l.
Proof.
  unfold findById. induction l as [|x l IH]; intros Hf; [reflexivity|].
  cbn in *. destruct (Z.eqb (id x) fileId); [discriminate|].
  rewrite (IH Hf). reflexivity.
Qed.

Lemma spliceDelete1_found (fileId : Z) (l : list MasonryItem) (x : MasonryItem) :
  findById fileId l = Some x ->
  spliceDelete1 (findIndexById fileId l) l = removeFirstById fileId l.
Proof.
  intros Hf. destruct (findIndexById_present fileId l x Hf) as (n & Hidx & Hlen & _ & Hcut).
  rewrite Hidx. unfold spliceDelete1. rewrite spliceStart_in_range by lia.
  exact Hcut.
Qed.

Lemma findById_not_in (fileId : Z) (l : list MasonryItem) :
  ~ In fileId (map id l) -> findById fileId l = None.
Proof.
  unfold findById. induction l as [|x l IH]; intros Hn; [reflexivity|].
  cbn in *. destruct (Z.eqb_spec (id x) fileId) as [E|E].
  - contradiction Hn. left. exact E.
  - apply IH. intros Hin. apply Hn. right. exact Hin.
Qed.

Lemma findById_removed (fileId : Z) (l : list MasonryItem) :
  NoDup (map id l) -> findById fileId (removeFirstById fileId l) = None.
Proof.
  induction l as [|x l IH]; intros Hnd; [reflexivity|].
  cbn in *. inversion Hnd as [|? ? Hnotin Hnd']; subst.
  destruct (Z.eqb_spec (id x) fileId) as [E|E].
  - apply findById_not_in. rewrite <- E. exact Hnotin.
  - unfold findById. cbn. destruct (Z.eqb_spec (id x) fileId); [contradiction|].
    apply IH, Hnd'.
Qed.

Lemma removeFirstById_length (fileId : Z) (l : list MasonryItem) :
  List.length l <= S (List.length (removeFirstById fileId l)).
Proof.
  induction l as [|x l IH]; cbn; [lia|].
  destruct (Z.eqb (id x) fileId); cbn; lia.
Qed.

Lemma removeFirstById_keeps (fileId : Z) (l : list MasonryItem) (x : MasonryItem) :
  In x l -> id x <> fileId -> In x (removeFirstById fileId l).
Proof.
  induction l as [|y l IH]; intros Hin Hid; [contradiction|].
  cbn. destruct (Z.eqb_spec (id y) fileId) as [E|E].
  - destruct Hin as [->|Hin]; [contradiction|exact Hin].
  - destruct Hin as [->|Hin]; [left; reflexivity | right; apply IH; assumption].
Qed.

(** ** Restoring a cancelled reaction *)

(** C2, as amended.  The restore callback of a queued reaction does nothing
    when the owning tab is not the active one, and nothing when an item of
    the same id is in the list.  Otherwise, a Masonry instance that offers
    [restore], [add] or [insert] (tried in that order) is handed the
    captured item and its original index, and the callback does not touch
    the list itself; without such a method the captured item is spliced in
    at [min(originalIndex, length)], an index inside the list, and
    [refreshLayout] is then called on the new list if and only if a Masonry
    instance offering it is mounted. *)
Theorem restoreItem_behaviour
    (r : RestoreItem) (restoreTabId : Z) (isTabActive : Z -> bool) (c : Component) :
  (0 <= captured_index r)%Z ->
  let item := captured_item r in
  let index := captured_index r in
  let run := restoreItem r restoreTabId isTabActive c in
  let k := Nat.min (Z.to_nat index) (List.length (items c)) in
  result run = Ok tt /\
  (isTabActive restoreTabId = false -> final run = c /\ trace run = []) /\
  (findById (id item) (items c) <> None -> final run = c /\ trace run = []) /\
  (isTabActive restoreTabId = true ->
   findById (id item) (items c) = None ->
   match masonry c with
   | Some m =>
       if has_restore m then final run = c /\ trace run = [EvMasonryRestore item index]
       else if has_add m then final run = c /\ trace run = [EvMasonryAdd item index]
       else if has_insert m then final run = c /\ trace run = [EvMasonryInsert item index]
       else
         k <= List.length (items c) /\
         final run = apply_write (WItems (insertAt k item (items c))) c /\
         trace run =
           EvWrite (WItems (insertAt k item (items c))) ::
           (if has_refreshLayout m
            then [EvNextTick; EvRefreshLayout (insertAt k item (items c))]
            else [])
   | None =>
       k <= List.length (items c) /\
       final run = apply_write (WItems (insertAt k item (items c))) c /\
       trace run = [EvWrite (WItems (insertAt k item (items c)))]
   end).
Proof.
  intros Hidx item index run k. subst item index run k.
  unfold restoreItem.
  destruct (isTabActive restoreTabId) eqn:Hactive; cbn [negb].
  2:{ repeat split; try reflexivity; discriminate. }
  rewrite get_bind_run.
  destruct (findById (id (captured_item r)) (items c)) as [x|] eqn:Hfind.
  - destruct (findIndexById_present _ _ _ Hfind) as (n & Hn & _).
    rewrite Hn. destruct (Z.eqb_spec (Z.of_nat n) (-1)); [lia|].
    repeat split; try reflexivity; discriminate.
  - rewrite (findIndexById_absent _ _ Hfind). cbn [Z.eqb Pos.eqb].
    rewrite (spliceInsert_clamped _ _ _ Hidx).
    destruct (masonry c) as [m|].
    + destruct (has_restore m), (has_add m), (has_insert m), (has_refreshLayout m);
        (split; [reflexivity|]); (split; [discriminate|]);
        (split; [intros Hne; contradiction Hne; reflexivity|]); intros _ _;
        repeat split; try reflexivity; apply Nat.le_min_r.
    + split; [reflexivity|]. split; [discriminate|].
      split; [intros Hne; contradiction Hne; reflexivity|]. intros _ _.
      repeat split; try reflexivity; apply Nat.le_min_r.
Qed.

Lemma restoreItem_behaviour_witness :
  let c := mkComponent (Some Inputs.cursorTab) true true [Inputs.item 2]
             (Some Inputs.mounted) true true (JNum 1) JNull JNull false JNull (JStr "") in
  let run := restoreItem (mkRestore (Inputs.item 1) 5) 1 (fun _ => true) c in
  items (final run) = [Inputs.item 2; Inputs.item 1] /\
  trace run = [ EvWrite (WItems [Inputs.item 2; Inputs.item 1]);
                EvNextTick;
                EvRefreshLayout [Inputs.item 2; Inputs.item 1] ].
Proof.
  pose proof (restoreItem_behaviour (mkRestore (Inputs.item 1) 5) 1 (fun _ => true)
                (mkComponent (Some Inputs.cursorTab) true true [Inputs.item 2]
                   (Some Inputs.mounted) true true (JNum 1) JNull JNull false JNull
                   (JStr ""))
                ltac:(cbn; lia)) as H.
  cbv zeta in H. destruct H as (_ & _ & _ & H).
  destruct (H eq_refl eq_refl) as (_ & Hfinal & Htrace).
  cbv zeta. rewrite Hfinal, Htrace. split; reflexivity.
Defined.

(** C2, as stated, fails: with no Masonry instance behind the ref the item
    is spliced back in, but nothing asks for a reflow. *)
Lemma restore_without_masonry_does_not_reflow : ~ restoreAlwaysReinsertsAndReflows.
Proof.
  intros Hclaim.
  specialize (Hclaim (mkRestore (Inputs.item 1) 0) 1%Z (fun _ => true)
                (Inputs.fresh (Some Inputs.cursorTab))
                ltac:(cbn; lia) eq_refl eq_refl).
  cbv zeta in Hclaim. destruct Hclaim as [_ Hreflow].
  cbn in Hreflow. discriminate Hreflow.
Qed.

(** With an instance that offers [restore], the callback delegates: the
    original index is passed on as it is, even beyond the end of the list,
    and the callback neither splices nor asks for a reflow. *)
Example restore_is_delegated :
  let m := mkMasonry false true false false true in
  let c := mkComponent (Some Inputs.cursorTab) true true [Inputs.item 2]
             (Some m) true true (JNum 1) JNull JNull false JNull (JStr "") in
  restoreItem (mkRestore (Inputs.item 1) 5) 1 (fun _ => true) c =
  mkRun (Ok tt) c [EvMasonryRestore (Inputs.item 1) 5].
Proof. reflexivity. Qed.

(** ** Reacting to an item that is not in the list *)

(** C9.  [handleMasonryReaction] for a [fileId] that no item of the list
    has leaves the component state, and so the list, as it was, calls no
    remove function, and still queues the reaction, with no preview, no
    restore callback, index [-1] and no item, and then tells the parent. *)
Theorem reaction_on_absent_item
    (env : Env) (fileId : Z) (ty : ReactionType) (removeItem : RemoveItem)
    (c : Component) :
  findById fileId (items c) = None ->
  handleMasonryReaction env fileId ty removeItem c =
  mkRun (Ok tt) c
    [ EvQueueReaction fileId ty None None (option_map tab_id (tab c)) (-1) None;
      EvOnReaction fileId ty ].
Proof.
  intros Hfind. unfold handleMasonryReaction.
  rewrite get_bind_run, Hfind. reflexivity.
Qed.

Lemma reaction_on_absent_item_witness :
  let c := mkComponent (Some Inputs.cursorTab) true true [Inputs.item 2]
             (Some Inputs.mounted) true true (JNum 1) JNull JNull false JNull (JStr "") in
  handleMasonryReaction Inputs.failing 7 funny SlotRemove c =
  mkRun (Ok tt) c [EvQueueReaction 7 funny None None (Some 1%Z) (-1) None; EvOnReaction 7 funny].
Proof.
  exact (reaction_on_absent_item Inputs.failing 7 funny SlotRemove
           (mkComponent (Some Inputs.cursorTab) true true [Inputs.item 2]
              (Some Inputs.mounted) true true (JNum 1) JNull JNull false JNull (JStr ""))
           eq_refl).
Defined.

(** ** Removing an item on behalf of the FileViewer *)

Lemma masonryRemoveCall_run (env : Env) (x : MasonryItem) (c : Component) :
  masonryRemoveCall env x c =
  mkRun (Ok tt) (apply_write (WItems (masonryRemove env x (items c))) c)
    [EvMasonryRemove x].
Proof. reflexivity. Qed.

Lemma ret_bind_run {A B : Type} (a : A) (k : A -> M B) (c : Component) :
  bind (ret a) k c = k a c.
Proof.
  unfold bind, ret. cbn. destruct (k a c) as [r f t]. destruct r; reflexivity.
Qed.

Lemma removeFromMasonry_unmounted (it : MasonryItem) (c : Component) :
  masonry c = None ->
  removeFromMasonry it c = mkRun (Throw nullValueError) c [].
Proof.
  intros Hm. unfold removeFromMasonry. rewrite get_bind_run, Hm. reflexivity.
Qed.

Lemma removeFromMasonry_mounted (it : MasonryItem) (c : Component) :
  masonry c <> None ->
  removeFromMasonry it c =
  match findById (id it) (items c) with
  | Some _ =>
      mkRun (Ok tt) (apply_write (WItems (removeFirstById (id it) (items c))) c)
        [EvWrite (WItems (removeFirstById (id it) (items c)))]
  | None => mkRun (Ok tt) c []
  end.
Proof.
  intros Hm. unfold removeFromMasonry. rewrite get_bind_run.
  destruct (masonry c) as [m|]; [|contradiction Hm; reflexivity].
  rewrite ret_bind_run, get_bind_run. cbv zeta.
  destruct (findById (id it) (items c)) as [x|] eqn:Hfind.
  - rewrite (spliceDelete1_found _ _ x Hfind).
    destruct (findIndexById_present _ _ x Hfind) as (n & Hn & _).
    rewrite Hn. destruct (Z.eqb_spec (Z.of_nat n) (-1)); [lia|]. reflexivity.
  - rewrite (findIndexById_absent _ _ Hfind). reflexivity.
Qed.

Lemma removeFromMasonry_items (it : MasonryItem) (c : Component) :
  (final (removeFromMasonry it c) = c /\
   (masonry c = None \/ findById (id it) (items c) = None)) \/
  (masonry c <> None /\
   items (final (removeFromMasonry it c)) = removeFirstById (id it) (items c)).
Proof.
  destruct (masonry c) as [m|] eqn:Hm.
  - rewrite removeFromMasonry_mounted by (rewrite Hm; discriminate).
    destruct (findById (id it) (items c)) eqn:Hfind.
    + right. split; [discriminate|reflexivity].
    + left. split; [reflexivity|right; reflexivity].
  - rewrite (removeFromMasonry_unmounted it c Hm).
    left. split; [reflexivity|left; reflexivity].
Qed.

(** C10.  On the items list the [remove-from-masonry] callback removes at
    most one entry, and only one of the given id: every other entry stays.
    With an instance behind the ref it returns normally and the list loses
    exactly its first entry of that id.  When no item of that id is in the
    list the component is left as it is, so that applying the callback
    again once no such item remains changes nothing. *)
Theorem removeFromMasonry_idempotent (it : MasonryItem) (c : Component) :
  let r := removeFromMasonry it c in
  (items (final r) = items c \/
   items (final r) = removeFirstById (id it) (items c)) /\
  List.length (items c) <= S (List.length (items (final r))) /\
  (forall x, In x (items c) -> id x <> id it -> In x (items (final r))) /\
  (masonry c <> None ->
   result r = Ok tt /\ items (final r) = removeFirstById (id it) (items c)) /\
  (findById (id it) (items c) = None -> final r = c /\ trace r = []) /\
  (findById (id it) (items (final r)) = None ->
   final (removeFromMasonry it (final r)) = final r).
Proof.
  intros r. subst r.
  assert (Habsent : forall c0, findById (id it) (items c0) = None ->
                               final (removeFromMasonry it c0) = c0 /\
                               trace (removeFromMasonry it c0) = []).
  { intros c0 Hfind. destruct (masonry c0) as [m|] eqn:Hm.
    - rewrite removeFromMasonry_mounted by (rewrite Hm; discriminate).
      rewrite Hfind. split; reflexivity.
    - rewrite (removeFromMasonry_unmounted it c0 Hm). split; reflexivity. }
  assert (Hcases : items (final (removeFromMasonry it c)) = items c \/
                   items (final (removeFromMasonry it c)) =
                   removeFirstById (id it) (items c)).
  { destruct (removeFromMasonry_items it c) as [[-> _]|[_ ->]];
      [left|right]; reflexivity. }
  split; [exact Hcases|].
  split; [destruct Hcases as [->| ->]; [lia|apply removeFirstById_length]|].
  split; [intros x Hin Hid; destruct Hcases as [->| ->];
          [exact Hin|apply removeFirstById_keeps; assumption]|].
  split.
  - intros Hm. rewrite (removeFromMasonry_mounted it c Hm).
    destruct (findById (id it) (items c)) eqn:Hfind; cbn [result final items apply_write].
    + split; reflexivity.
    + rewrite (removeFirstById_absent _ _ Hfind). split; reflexivity.
  - split; [apply Habsent|]. intros Hgone. apply (Habsent _ Hgone).
Qed.

Lemma removeFromMasonry_idempotent_witness :
  let c := mkComponent (Some Inputs.cursorTab) true true
             [Inputs.item 1; Inputs.item 2; Inputs.item 3]
             (Some Inputs.mounted) true true (JNum 1) JNull JNull false JNull (JStr "") in
  items (final (removeFromMasonry (Inputs.item 2) c)) = [Inputs.item 1; Inputs.item 3].
Proof.
  pose proof (removeFromMasonry_idempotent (Inputs.item 2)
                (mkComponent (Some Inputs.cursorTab) true true
                   [Inputs.item 1; Inputs.item 2; Inputs.item 3]
                   (Some Inputs.mounted) true true (JNum 1) JNull JNull false JNull
                   (JStr ""))) as H.
  cbv zeta in H. destruct H as (_ & _ & _ & H & _).
  destruct (H ltac:(discriminate)) as [_ Hitems].
  cbv zeta. rewrite Hitems. reflexivity.
Defined.

(** ** ALT + mouse button on a tile *)

Lemma callRemoveItem_run (env : Env) (rm : RemoveItem) (it : MasonryItem) (c : Component) :
  exists c' pre,
    callRemoveItem env rm it c = mkRun (Ok tt) c' pre /\
    (pre = [] \/ exists x, pre = [EvMasonryRemove x]).
Proof.
  destruct rm; cbn [callRemoveItem].
  - unfold removeFn. rewrite get_bind_run.
    destruct (masonry c); [destruct (findById (id it) (items c)) as [x|]|].
    + eexists _, _. split; [apply masonryRemoveCall_run|]. right. eexists. reflexivity.
    + eexists _, _. split; [reflexivity|]. left. reflexivity.
    + eexists _, _. split; [reflexivity|]. left. reflexivity.
  - eexists _, _. split; [apply masonryRemoveCall_run|]. right. eexists. reflexivity.
  - eexists _, _. split; [reflexivity|]. left. reflexivity.
Qed.

(** What [handleMasonryReaction] does for an item of the list: at most one
    call of [masonry.remove], then the reaction is queued and the parent is
    told. *)
Lemma handleMasonryReaction_run (env : Env) (fileId : Z) (ty : ReactionType)
    (rm : RemoveItem) (c : Component) (it : MasonryItem) :
  findById fileId (items c) = Some it ->
  exists c' pre restore index,
    handleMasonryReaction env fileId ty rm c =
    mkRun (Ok tt) c'
      (pre ++ [ EvQueueReaction fileId ty (Some (src it)) restore
                  (option_map tab_id (tab c)) index (Some it);
                EvOnReaction fileId ty ]) /\
    (pre = [] \/ exists x, pre = [EvMasonryRemove x]).
Proof.
  intros Hfind. unfold handleMasonryReaction. rewrite get_bind_run, Hfind.
  destruct (callRemoveItem_run env rm it c) as (c' & pre & Hrm & Hpre).
  exists c', pre. eexists _, _. split; [|exact Hpre].
  eapply bind_run; [|reflexivity].
  destruct rm; [exact Hrm | exact Hrm |].
  cbn in Hrm. exact Hrm.
Qed.

Lemma handleAltClickReaction_run (env : Env) (e : MouseEvent) (fileId : Z)
    (c : Component) (it : MasonryItem) (ty : ReactionType) :
  findById fileId (items c) = Some it ->
  reactionTypeFor e = Some ty ->
  exists c' pre restore index,
    handleAltClickReaction env e fileId c =
    mkRun (Ok tt) c'
      (EvPreventDefault :: EvStopPropagation ::
       pre ++ [ EvQueueReaction fileId ty (Some (src it)) restore
                  (option_map tab_id (tab c)) index (Some it);
                EvOnReaction fileId ty ]) /\
    (pre = [] \/ exists x, pre = [EvMasonryRemove x]).
Proof.
  intros Hfind Hty.
  destruct (handleMasonryReaction_run env fileId ty RemoveFn c it Hfind)
    as (c' & pre & restore & index & Hrun & Hpre).
  exists c', pre, restore, index. split; [|exact Hpre].
  unfold handleAltClickReaction. rewrite Hty.
  eapply (bind_run _ _ c c c' tt (Ok tt) [EvPreventDefault]); [reflexivity|].
  eapply (bind_run _ _ c c c' tt (Ok tt) [EvStopPropagation]); [reflexivity|].
  rewrite get_bind_run, Hfind. exact Hrun.
Qed.

Lemma queued_of_reaction (pre : list Event) (fileId : Z) (ty : ReactionType)
    (url : option string) (restore : option RestoreItem) (tabId : option Z)
    (index : Z) (it : option MasonryItem) :
  pre = [] \/ (exists x, pre = [EvMasonryRemove x]) ->
  queued (EvPreventDefault :: EvStopPropagation ::
          pre ++ [EvQueueReaction fileId ty url restore tabId index it;
                  EvOnReaction fileId ty]) = [(fileId, ty)].
Proof. intros [->|[x ->]]; reflexivity. Qed.

(** No handler run for an event with ALT held reaches the overlay. *)
Lemma no_overlay_from_reaction (env : Env) (e : MouseEvent) (fileId : Z) (c : Component) :
  existsb isOpenFromClick (trace (handleAltClickReaction env e fileId c)) = false.
Proof.
  destruct (reactionTypeFor e) as [ty|] eqn:Hty.
  - destruct (findById fileId (items c)) as [it|] eqn:Hfind.
    + destruct (handleAltClickReaction_run env e fileId c it ty Hfind Hty)
        as (c' & pre & restore & index & Hrun & [->|[x ->]]);
        rewrite Hrun; reflexivity.
    + unfold handleAltClickReaction. rewrite Hty.
      erewrite (bind_run _ _ c c c tt (Ok tt) [EvPreventDefault]); [|reflexivity|].
      2:{ eapply (bind_run _ _ c c c tt (Ok tt) [EvStopPropagation]); [reflexivity|].
          rewrite get_bind_run, Hfind. reflexivity. }
      reflexivity.
  - unfold handleAltClickReaction. rewrite Hty. reflexivity.
Qed.

Lemma no_overlay_from_alt_click (env : Env) (e : MouseEvent) (c : Component) :
  existsb isOpenFromClick (trace (handleAltClickOnMasonry env e c)) = false.
Proof.
  unfold handleAltClickOnMasonry. rewrite get_bind_run.
  destruct (masonryContainer c); cbn [negb]; [|reflexivity].
  destruct (target e) as [| |tile]; try reflexivity.
  destruct (dataItemId tile) as [| |fileId]; try reflexivity.
  - destruct (img tile) as [imgSrc|]; [|reflexivity].
    destruct (findBySrc imgSrc (items c)); [|reflexivity].
    apply no_overlay_from_reaction.
  - apply no_overlay_from_reaction.
Qed.

Lemma alt_never_opens_overlay (env : Env) (e : MouseEvent) (c : Component) :
  altKey e = true ->
  existsb isOpenFromClick (trace (dispatch env e c)) = false.
Proof.
  intros Halt. unfold dispatch, onMasonryClick, onMasonryMouseDown. rewrite Halt.
  destruct (e_type e).
  - apply no_overlay_from_alt_click.
  - pose proof (no_overlay_from_alt_click env e c) as Hno.
    destruct (handleAltClickOnMasonry env e c) as [res fin tr] eqn:Hrun.
    erewrite bind_run; [|apply emit_run|exact Hrun]. exact Hno.
  - cbn [andb]. destruct (Z.eqb (button e) 1); [|reflexivity].
    apply no_overlay_from_alt_click.
Qed.

(** The three gestures of the tests: ALT + left click, ALT + right click
    and ALT + middle click on the tile of an item that is in the list queue
    [like], [dislike] and [love] for it, and prevent the default action. *)
Lemma alt_gestures_enqueue (env : Env) (e : MouseEvent) (c : Component)
    (tile : Tile) (fileId : Z) (it : MasonryItem) :
  altKey e = true ->
  masonryContainer c = true ->
  target e = OnTile tile ->
  dataItemId tile = ItemIdNumber fileId ->
  findById fileId (items c) = Some it ->
  let tr := trace (dispatch env e c) in
  (e_type e = click -> button e = 0%Z ->
   queued tr = [(fileId, like)] /\ In EvPreventDefault tr) /\
  (e_type e = contextmenu -> button e = 2%Z ->
   queued tr = [(fileId, dislike)] /\ In EvPreventDefault tr) /\
  (e_type e = mousedown -> button e = 1%Z ->
   queued tr = [(fileId, love)] /\ In EvPreventDefault tr).
Proof.
  intros Halt Hcontainer Htarget Hid Hfind tr. subst tr.
  assert (Hon : handleAltClickOnMasonry env e c = handleAltClickReaction env e fileId c).
  { unfold handleAltClickOnMasonry. rewrite get_bind_run, Hcontainer, Htarget, Hid.
    reflexivity. }
  unfold dispatch.
  split; [|split]; intros Htype Hbutton; rewrite Htype.
  - destruct (handleAltClickReaction_run env e fileId c it like Hfind)
      as (c' & pre & restore & index & Hrun & Hpre).
    { unfold reactionTypeFor. rewrite Hbutton, Htype. reflexivity. }
    unfold onMasonryClick. rewrite Halt, Hon, Hrun. cbn [trace].
    split; [apply queued_of_reaction, Hpre|left; reflexivity].
  - destruct (handleAltClickReaction_run env e fileId c it dislike Hfind)
      as (c' & pre & restore & index & Hrun & Hpre).
    { unfold reactionTypeFor. rewrite Hbutton, Htype. reflexivity. }
    erewrite bind_run; [|apply emit_run|].
    2:{ unfold onMasonryClick. rewrite Halt, Hon. exact Hrun. }
    cbn [trace app]. split; [|left; reflexivity].
    apply (queued_of_reaction pre), Hpre.
  - destruct (handleAltClickReaction_run env e fileId c it love Hfind)
      as (c' & pre & restore & index & Hrun & Hpre).
    { unfold reactionTypeFor. rewrite Hbutton, Htype. reflexivity. }
    unfold onMasonryMouseDown. rewrite Halt, Hbutton. cbn [andb Z.eqb Pos.eqb].
    rewrite Hon, Hrun. cbn [trace].
    split; [apply queued_of_reaction, Hpre|left; reflexivity].
Qed.

(** C6 fails on the code.  A [contextmenu] event with ALT held whose
    [button] is [0] reaches the first test of the reaction choice,
    [e.button === 0], so that [like] is queued for the tile and the test
    for the [contextmenu] type is never reached. *)
Theorem alt_contextmenu_with_button_zero_queues_like :
  reactionTypeFor Inputs.altContextMenuPrimary = Some like /\
  trace (dispatch Inputs.failing Inputs.altContextMenuPrimary Inputs.gallery) =
  [ EvPreventDefault;
    EvPreventDefault;
    EvStopPropagation;
    EvMasonryRemove (Inputs.item 1);
    EvQueueReaction 1 like (Some "test.jpg"%string)
      (Some (mkRestore (Inputs.item 1) 0)) (Some 1%Z) 0 (Some (Inputs.item 1));
    EvOnReaction 1 like ] /\
  queued (trace (dispatch Inputs.failing Inputs.altContextMenuPrimary Inputs.gallery)) =
  [(1%Z, like)].
Proof. repeat split; reflexivity. Qed.

(** ** Worked examples *)

(** The cursor-fidelity example of the specification: persisted
    [{page: "cursor-x", next: "cursor-y"}] with existing [fileIds]. *)
Example cursor_is_restored :
  let r := initializeTab (Inputs.serves [Inputs.item 1; Inputs.item 2] 3)
             (Inputs.fresh (Some Inputs.cursorTab)) in
  currentPage (final r) = JStr "cursor-x" /\
  nextCursor (final r) = JStr "cursor-y" /\
  loadAtPage (final r) = JNull /\
  isTabRestored (final r) = false /\
  filter isTimeout (trace r) = [EvSetTimeout 50; EvSetTimeout 50; EvSetTimeout 50] /\
  In (EvMasonryInit [Inputs.item 1; Inputs.item 2] (JStr "cursor-x") (JStr "cursor-y"))
     (trace r).
Proof. repeat split; try reflexivity. vm_compute. tauto. Qed.

Example new_tab_does_not_load :
  loadAtPage (final (initializeTab Inputs.failing (Inputs.fresh (Some Inputs.newTab))))
  = JNull.
Proof. reflexivity. Qed.

Example load_failure_trace :
  trace (initializeTab Inputs.failing (Inputs.fresh (Some Inputs.cursorTab))) =
  [ EvFileViewerClose;
    EvWrite (WIsTabRestored true);
    EvWrite (WSelectedService (JStr "civit-ai-images"));
    EvWrite (WPendingRestoreNextCursor (JStr "cursor-y"));
    EvTabDataLoadingChange true;
    EvLoadTabItems 1;
    EvConsoleError "Failed to load tab items:";
    EvWrite (WTabItemsData []);
    EvTabDataLoadingChange false;
    EvWrite (WCurrentPage (JStr "cursor-x"));
    EvWrite (WNextCursor (JStr "cursor-y"));
    EvWrite (WLoadAtPage (JStr "cursor-x"));
    EvWrite (WItems []);
    EvNextTick;
    EvWrite (WIsTabRestored false) ].
Proof. reflexivity. Qed.

(** A right click with ALT held, as the browser sends it. *)
Example alt_right_click_dislikes :
  queued (trace (dispatch Inputs.failing
                   (mkMouse contextmenu true 2
                      (OnTile (mkTile (ItemIdNumber 2) None)))
                   Inputs.gallery)) = [(2%Z, dislike)].
Proof. reflexivity. Qed.

(** Without ALT, a left click opens the overlay and queues nothing. *)
Example plain_click_opens_overlay :
  trace (dispatch Inputs.failing
           (mkMouse click false 0 (OnTile (mkTile (ItemIdNumber 2) None)))
           Inputs.gallery) = [EvOpenFromClick].
Proof. reflexivity. Qed.

(** * Further properties *)

(** ** The two restore paths *)

Lemma findById_present_in (fileId : Z) (l : list MasonryItem) (x : MasonryItem) :
  In x l -> id x = fileId -> findById fileId l <> None.
Proof.
  intros Hin Hid. unfold findById.
  destruct (List.find (fun i => Z.eqb (id i) fileId) l) eqn:Hf; [discriminate|].
  pose proof (find_none _ _ Hf x Hin) as Hx. cbn in Hx.
  rewrite Hid, Z.eqb_refl in Hx. discriminate Hx.
Qed.

Lemma findById_in (fileId : Z) (l : list MasonryItem) (x : MasonryItem) :
  findById fileId l = Some x -> In x l.
Proof. intros Hf. apply find_some in Hf. exact (proj1 Hf). Qed.


Lemma in_spliceInsert (start : Z) (x : MasonryItem) (l : list MasonryItem) :
  In x (spliceInsert start x l).
Proof. unfold spliceInsert. apply in_or_app. right. left. reflexivity. Qed.

Lemma findIndexById_found (fileId : Z) (l : list MasonryItem) :
  findById fileId l <> None -> Z.eqb (findIndexById fileId l) (-1) = false.
Proof.
  intros Hf. destruct (findById fileId l) as [x|] eqn:Hx; [|contradiction].
  destruct (findIndexById_present fileId l x Hx) as (n & Hn & _).
  rewrite Hn. apply Z.eqb_neq. lia.
Qed.

Lemma restoreItem_active (r : RestoreItem) (restoreTabId : Z)
    (isTabActive : Z -> bool) (c : Component) :
  isTabActive restoreTabId = true ->
  restoreItem r restoreTabId isTabActive c =
  restoreToMasonry (captured_item r) (captured_index r) (masonry c) c.
Proof.
  intros Hactive. unfold restoreToMasonry, restoreItem.
  rewrite Hactive. cbn [negb]. rewrite !get_bind_run. reflexivity.
Qed.

(** X1.  On the active tab, and with the Masonry instance of the component
    as its argument, [restoreToMasonry] does exactly what the restore
    callback of the reaction queue does: same final state, same calls. *)
Theorem restoreToMasonry_agrees_with_restoreItem
    (item : MasonryItem) (index restoreTabId : Z) (isTabActive : Z -> bool)
    (c : Component) :
  isTabActive restoreTabId = true ->
  restoreToMasonry item index (masonry c) c =
  restoreItem (mkRestore item index) restoreTabId isTabActive c.
Proof.
  intros Hactive. symmetry.
  apply (restoreItem_active (mkRestore item index) restoreTabId isTabActive c Hactive).
Qed.

Lemma restoreToMasonry_agrees_with_restoreItem_witness :
  restoreToMasonry (Inputs.item 7) 1 (Some Inputs.mounted) Inputs.gallery =
  restoreItem (mkRestore (Inputs.item 7) 1) 1 (fun _ => true) Inputs.gallery.
Proof.
  exact (restoreToMasonry_agrees_with_restoreItem (Inputs.item 7) 1 1 (fun _ => true)
           Inputs.gallery eq_refl).
Defined.

Lemma restoreToMasonry_present (item : MasonryItem) (index : Z)
    (inst : option MasonryInstance) (c : Component) :
  findById (id item) (items c) <> None ->
  restoreToMasonry item index inst c = mkRun (Ok tt) c [].
Proof.
  intros Hf. unfold restoreToMasonry. rewrite get_bind_run. cbv zeta.
  rewrite (findIndexById_found _ _ Hf). reflexivity.
Qed.

Lemma restoreToMasonry_splices (item : MasonryItem) (index : Z)
    (inst : option MasonryInstance) (c : Component) :
  splicesItself inst = true ->
  findById (id item) (items c) = None ->
  let l' := spliceInsert (Z.min index (Z.of_nat (List.length (items c)))) item (items c) in
  result (restoreToMasonry item index inst c) = Ok tt /\
  final (restoreToMasonry item index inst c) = apply_write (WItems l') c.
Proof.
  intros Hinst Hf l'. subst l'. unfold restoreToMasonry. rewrite get_bind_run. cbv zeta.
  rewrite (findIndexById_absent _ _ Hf). cbn [Z.eqb Pos.eqb].
  destruct inst as [m|]; [|split; reflexivity].
  cbn in Hinst.
  destruct (has_restore m), (has_add m), (has_insert m); try discriminate Hinst.
  destruct (has_refreshLayout m); split; reflexivity.
Qed.

(** X2.  When the instance offers none of [restore], [add] and [insert],
    [restoreToMasonry] is idempotent: after one call an item of that id is
    in the list, whatever the index was, and a second call changes nothing
    and calls nothing. *)
Theorem restoreToMasonry_idempotent (item : MasonryItem) (index : Z)
    (inst : option MasonryInstance) (c : Component) :
  splicesItself inst = true ->
  let r := restoreToMasonry item index inst c in
  result r = Ok tt /\
  findById (id item) (items (final r)) <> None /\
  restoreToMasonry item index inst (final r) = mkRun (Ok tt) (final r) [].
Proof.
  intros Hinst r. subst r.
  assert (Hpresent : findById (id item)
                       (items (final (restoreToMasonry item index inst c))) <> None).
  { destruct (findById (id item) (items c)) as [x|] eqn:Hf.
    - rewrite restoreToMasonry_present by (rewrite Hf; discriminate).
      cbn. rewrite Hf. discriminate.
    - destruct (restoreToMasonry_splices item index inst c Hinst Hf) as [_ Hfin].
      rewrite Hfin. cbn [items apply_write].
      apply (findById_present_in _ _ item); [apply in_spliceInsert|reflexivity]. }
  split; [|split; [exact Hpresent|apply restoreToMasonry_present, Hpresent]].
  destruct (findById (id item) (items c)) as [x|] eqn:Hf.
  - rewrite restoreToMasonry_present by (rewrite Hf; discriminate). reflexivity.
  - exact (proj1 (restoreToMasonry_splices item index inst c Hinst Hf)).
Qed.

Lemma restoreToMasonry_idempotent_witness :
  let r := restoreToMasonry (Inputs.item 7) (-3) None Inputs.gallery in
  restoreToMasonry (Inputs.item 7) (-3) None (final r) = mkRun (Ok tt) (final r) [].
Proof.
  exact (proj2 (proj2 (restoreToMasonry_idempotent (Inputs.item 7) (-3) None
                         Inputs.gallery eq_refl))).
Defined.

(** ** Distinct ids *)


Lemma NoDup_removeFirstById (fileId : Z) (l : list MasonryItem) :
  NoDup (map id l) -> NoDup (map id (removeFirstById fileId l)).
Proof.
  induction l as [|x l IH]; intros Hnd; [exact Hnd|].
  cbn in *. inversion Hnd as [|? ? Hnotin Hnd']; subst.
  destruct (Z.eqb (id x) fileId); [exact Hnd'|].
  cbn. constructor; [|apply IH, Hnd'].
  intros Hin. apply Hnotin. apply in_map_iff in Hin.
  destruct Hin as (y & Hy & Hin). apply in_map_iff. exists y. split; [exact Hy|].
  clear - Hin. induction l as [|z l IH]; [contradiction|].
  cbn in Hin. destruct (Z.eqb (id z) fileId); [right; exact Hin|].
  destruct Hin as [->|Hin]; [left; reflexivity|right; apply IH, Hin].
Qed.



(** ** Removing and restoring *)

Lemma cut_and_insert (l : list MasonryItem) (n : nat) (x : MasonryItem) :
  nth_error l n = Some x ->
  insertAt n x (firstn n l ++ skipn (S n) l) = l.
Proof.
  revert n. induction l as [|y l IH]; intros n Hn; [destruct n; discriminate|].
  destruct n as [|n].
  - injection Hn as ->. reflexivity.
  - cbn in Hn. specialize (IH n Hn). unfold insertAt in *.
    cbn [firstn skipn app]. f_equal. exact IH.
Qed.

Lemma cut_length (l : list MasonryItem) (n : nat) :
  n < List.length l ->
  List.length (firstn n l ++ skipn (S n) l) = List.length l - 1.
Proof.
  intros Hn. rewrite length_app, firstn_length_le, length_skipn by lia. lia.
Qed.

Lemma position_of_distinct (l : list MasonryItem) (n : nat) (x : MasonryItem) :
  NoDup (map id l) ->
  nth_error l n = Some x ->
  findById (id x) l = Some x /\
  firstn n l ++ skipn (S n) l = removeFirstById (id x) l.
Proof.
  revert n. induction l as [|y l IH]; intros n Hnd Hn; [destruct n; discriminate|].
  cbn in Hnd. inversion Hnd as [|? ? Hnotin Hnd']; subst.
  destruct n as [|n].
  - injection Hn as ->. unfold findById. cbn. rewrite Z.eqb_refl. split; reflexivity.
  - cbn in Hn. destruct (IH n Hnd' Hn) as [Hfind Hcut].
    assert (Hne : Z.eqb (id y) (id x) = false).
    { apply Z.eqb_neq. intros E. apply Hnotin. rewrite E.
      apply in_map, (nth_error_In _ _ Hn). }
    unfold findById in *. cbn. rewrite Hne. split; [exact Hfind|].
    rewrite <- Hcut. reflexivity.
Qed.

(** What [handleMasonryReaction] does for an item of the list, in full. *)
Lemma handleMasonryReaction_present (env : Env) (fileId : Z) (ty : ReactionType)
    (rm : RemoveItem) (c : Component) (it : MasonryItem) :
  findById fileId (items c) = Some it ->
  exists n c' pre,
    nth_error (items c) n = Some it /\
    firstn n (items c) ++ skipn (S n) (items c) = removeFirstById fileId (items c) /\
    handleMasonryReaction env fileId ty rm c =
    mkRun (Ok tt) c'
      (pre ++ [ EvQueueReaction fileId ty (Some (src it))
                  (match tab c with
                   | Some _ => Some (mkRestore it (Z.of_nat n))
                   | None => None
                   end)
                  (option_map tab_id (tab c)) (Z.of_nat n) (Some it);
                EvOnReaction fileId ty ]) /\
    ((c' = c /\ pre = []) \/
     (c' = apply_write (WItems (masonryRemove env it (items c))) c /\
      pre = [EvMasonryRemove it])).
Proof.
  intros Hfind.
  destruct (findIndexById_present fileId (items c) it Hfind) as (n & Hn & _ & Hnth & Hcut).
  assert (Hrm : exists c' pre,
             callRemoveItem env rm it c = mkRun (Ok tt) c' pre /\
             ((c' = c /\ pre = []) \/
              (c' = apply_write (WItems (masonryRemove env it (items c))) c /\
               pre = [EvMasonryRemove it]))).
  { destruct rm; cbn [callRemoveItem].
    - unfold removeFn. rewrite get_bind_run.
      rewrite (findById_id _ _ _ Hfind), Hfind.
      destruct (masonry c).
      + eexists _, _. split; [apply masonryRemoveCall_run|]. right. split; reflexivity.
      + eexists _, _. split; [reflexivity|]. left. split; reflexivity.
    - eexists _, _. split; [apply masonryRemoveCall_run|]. right. split; reflexivity.
    - eexists _, _. split; [reflexivity|]. left. split; reflexivity. }
  destruct Hrm as (c' & pre & Hrm & Hshape).
  exists n, c', pre. split; [exact Hnth|]. split; [exact Hcut|]. split; [|exact Hshape].
  unfold handleMasonryReaction. rewrite get_bind_run, Hfind, Hn.
  eapply bind_run.
  - destruct rm; [exact Hrm | exact Hrm | cbn in Hrm; exact Hrm].
  - replace (Z.eqb (Z.of_nat n) (-1)) with false by (symmetry; apply Z.eqb_neq; lia).
    destruct (tab c); reflexivity.
Qed.

Lemma restore_after_cut (it : MasonryItem) (n : nat) (inst : option MasonryInstance)
    (c : Component) (l : list MasonryItem) :
  splicesItself inst = true ->
  NoDup (map id l) ->
  nth_error l n = Some it ->
  items c = removeFirstById (id it) l ->
  items (final (restoreToMasonry it (Z.of_nat n) inst c)) = l.
Proof.
  intros Hinst Hnd Hnth Hitems.
  destruct (position_of_distinct l n it Hnd Hnth) as [_ Hcut].
  assert (Hlen : n < List.length l) by (apply nth_error_Some; rewrite Hnth; discriminate).
  assert (Habsent : findById (id it) (items c) = None).
  { rewrite Hitems. apply findById_removed, Hnd. }
  destruct (restoreToMasonry_splices it (Z.of_nat n) inst c Hinst Habsent) as [_ Hfin].
  rewrite Hfin. cbn [items apply_write].
  rewrite spliceInsert_clamped by lia.
  rewrite Hitems, <- Hcut, Nat2Z.id, cut_length by exact Hlen.
  rewrite Nat.min_l by lia. apply cut_and_insert, Hnth.
Qed.

(** X4.  Reacting to an item and then cancelling puts the list back as it
    was.  For an item of the list on a tab, [handleMasonryReaction] queues
    the reaction with a restore callback that holds the item and its
    position; when [masonry.remove] keeps its contract, the ids are
    distinct and the instance offers no restore method of its own, running
    that callback on the active tab gives back exactly the list there was
    before the reaction. *)
Theorem reaction_then_cancel_restores_list
    (env : Env) (fileId : Z) (ty : ReactionType) (rm : RemoveItem) (c : Component)
    (it : MasonryItem) (t : BrowseTabData) (restoreTabId : Z) (isTabActive : Z -> bool) :
  removeContract env ->
  NoDup (map id (items c)) ->
  findById fileId (items c) = Some it ->
  tab c = Some t ->
  splicesItself (masonry c) = true ->
  isTabActive restoreTabId = true ->
  let r1 := handleMasonryReaction env fileId ty rm c in
  exists n,
    nth_error (items c) n = Some it /\
    In (EvQueueReaction fileId ty (Some (src it)) (Some (mkRestore it (Z.of_nat n)))
          (Some (tab_id t)) (Z.of_nat n) (Some it)) (trace r1) /\
    items (final (restoreItem (mkRestore it (Z.of_nat n)) restoreTabId isTabActive
                    (final r1))) = items c.
Proof.
  intros Hcontract Hnd Hfind Ht Hinst Hactive r1. subst r1.
  destruct (handleMasonryReaction_present env fileId ty rm c it Hfind)
    as (n & c' & pre & Hnth & Hcut & Hrun & Hshape).
  exists n. rewrite Hrun, Ht. cbn [result final trace option_map].
  split; [exact Hnth|]. split; [apply in_or_app; right; left; reflexivity|].
  rewrite restoreItem_active by exact Hactive. cbn [captured_item captured_index].
  assert (Hkeep : forall c0, items c0 = items c ->
            items (final (restoreToMasonry it (Z.of_nat n) (masonry c0) c0)) = items c).
  { intros c0 Hc0. rewrite restoreToMasonry_present; [exact Hc0|].
    rewrite Hc0, (findById_id _ _ _ Hfind), Hfind. discriminate. }
  destruct Hshape as [[-> _]|[-> _]]; [apply Hkeep; reflexivity|].
  destruct (Hcontract it (items c)) as [Hsame|Hgone].
  - apply Hkeep. cbn. exact Hsame.
  - apply restore_after_cut; [exact Hinst|exact Hnd|exact Hnth|].
    cbn. exact Hgone.
Qed.

Lemma reaction_then_cancel_restores_list_witness :
  exists n,
    items (final (restoreItem (mkRestore (Inputs.item 2) (Z.of_nat n)) 1 (fun _ => true)
                    (final (handleMasonryReaction Scenes.syncEnv 2 like SlotRemove
                              Inputs.gallery)))) = items Inputs.gallery.
Proof.
  destruct (reaction_then_cancel_restores_list Scenes.syncEnv 2 like SlotRemove
              Inputs.gallery (Inputs.item 2) Inputs.cursorTab 1 (fun _ => true)
              Scenes.syncContract Scenes.distinctGallery eq_refl eq_refl eq_refl eq_refl)
    as (n & _ & _ & H).
  exists n. exact H.
Defined.

(** X5.  With an instance behind the ref, the FileViewer's pair of
    callbacks is a round trip: removing an item with [removeFromMasonry]
    and restoring it with [restoreToMasonry] at the index it had gives back
    the list there was, when the ids are distinct and the instance handed
    to the restore offers no restore method of its own. *)
Theorem remove_then_restore_is_identity
    (it : MasonryItem) (n : nat) (inst : option MasonryInstance) (c : Component) :
  masonry c <> None ->
  NoDup (map id (items c)) ->
  nth_error (items c) n = Some it ->
  splicesItself inst = true ->
  let removed := final (removeFromMasonry it c) in
  result (removeFromMasonry it c) = Ok tt /\
  findById (id it) (items removed) = None /\
  List.length (items removed) = List.length (items c) - 1 /\
  items (final (restoreToMasonry it (Z.of_nat n) inst removed)) = items c.
Proof.
  intros Hm Hnd Hnth Hinst removed. subst removed.
  destruct (position_of_distinct (items c) n it Hnd Hnth) as [Hfind Hcut].
  assert (Hlen : n < List.length (items c))
    by (apply nth_error_Some; rewrite Hnth; discriminate).
  rewrite (removeFromMasonry_mounted it c Hm), Hfind.
  cbn [result final items apply_write].
  split; [reflexivity|].
  split; [apply findById_removed, Hnd|].
  split; [rewrite <- Hcut; apply cut_length, Hlen|].
  apply restore_after_cut; [exact Hinst|exact Hnd|exact Hnth|reflexivity].
Qed.

Lemma remove_then_restore_is_identity_witness :
  items (final (restoreToMasonry (Inputs.item 1) 0 (Some Inputs.mounted)
                  (final (removeFromMasonry (Inputs.item 1) Inputs.gallery))))
  = items Inputs.gallery.
Proof.
  exact (proj2 (proj2 (proj2 (remove_then_restore_is_identity (Inputs.item 1) 0
                                (Some Inputs.mounted) Inputs.gallery
                                ltac:(discriminate) Scenes.distinctGallery
                                eq_refl eq_refl)))).
Defined.

(** X6.  [removeFromMasonry] never calls [masonry.remove].  With no
    instance behind the ref it throws a [TypeError] before it reaches the
    list, which is left as it is; with an instance it returns normally and
    the only thing it does is its own splice of the first entry of the
    given id, or nothing when the list has no such entry. *)
Theorem removeFromMasonry_splices_itself (it : MasonryItem) (c : Component) :
  let r := removeFromMasonry it c in
  existsb isMasonryRemove (trace r) = false /\
  (masonry c = None -> r = mkRun (Throw nullValueError) c []) /\
  (masonry c <> None ->
   result r = Ok tt /\
   trace r = match findById (id it) (items c) with
             | Some _ => [EvWrite (WItems (removeFirstById (id it) (items c)))]
             | None => []
             end).
Proof.
  intros r. subst r.
  destruct (masonry c) as [m|] eqn:Hm.
  - assert (Hmounted : masonry c <> None) by (rewrite Hm; discriminate).
    rewrite (removeFromMasonry_mounted it c Hmounted).
    destruct (findById (id it) (items c)); cbn [result trace];
      (split; [reflexivity|]); (split; [discriminate|]); intros _; split; reflexivity.
  - rewrite (removeFromMasonry_unmounted it c Hm).
    split; [reflexivity|]. split; [reflexivity|].
    intros Hne. contradiction Hne. reflexivity.
Qed.

Lemma removeFromMasonry_splices_itself_witness :
  removeFromMasonry (Inputs.item 2) (Inputs.fresh (Some Inputs.cursorTab)) =
  mkRun (Throw nullValueError) (Inputs.fresh (Some Inputs.cursorTab)) [].
Proof.
  exact (proj1 (proj2 (removeFromMasonry_splices_itself (Inputs.item 2)
                         (Inputs.fresh (Some Inputs.cursorTab))))
           eq_refl).
Defined.

(** ** Queueing reactions *)

Lemma reaction_on_absent_item_run
    (env : Env) (fileId : Z) (ty : ReactionType) (rm : RemoveItem) (c : Component) :
  findById fileId (items c) = None ->
  handleMasonryReaction env fileId ty rm c =
  mkRun (Ok tt) c
    [ EvQueueReaction fileId ty None None (option_map tab_id (tab c)) (-1) None;
      EvOnReaction fileId ty ].
Proof.
  intros Hfind. unfold handleMasonryReaction.
  rewrite get_bind_run, Hfind. reflexivity.
Qed.

(** X7.  Every call of [handleMasonryReaction], for an item of the list or
    not, returns normally, queues exactly one reaction, the one asked for,
    and tells the parent exactly once, after queueing.  A restore callback
    goes with the queued reaction exactly when the item is in the list and
    the component has a tab. *)
Theorem handleMasonryReaction_queues_once
    (env : Env) (fileId : Z) (ty : ReactionType) (rm : RemoveItem) (c : Component) :
  let r := handleMasonryReaction env fileId ty rm c in
  result r = Ok tt /\
  queued (trace r) = [(fileId, ty)] /\
  filter isOnReaction (trace r) = [EvOnReaction fileId ty] /\
  (exists before q, trace r = before ++ [q; EvOnReaction fileId ty] /\
                    queued [q] = [(fileId, ty)]) /\
  (forall url restore tabId index item,
      In (EvQueueReaction fileId ty url restore tabId index item) (trace r) ->
      item = findById fileId (items c) /\
      (restore <> None <-> (item <> None /\ tab c <> None))).
Proof.
  intros r. subst r.
  destruct (findById fileId (items c)) as [it|] eqn:Hfind.
  - destruct (handleMasonryReaction_present env fileId ty rm c it Hfind)
      as (n & c' & pre & _ & _ & Hrun & Hshape).
    rewrite Hrun. cbn [result trace].
    assert (Hpre : pre = [] \/ pre = [EvMasonryRemove it])
      by (destruct Hshape as [[_ ->]|[_ ->]]; [left|right]; reflexivity).
    split; [reflexivity|].
    split; [destruct Hpre as [->| ->]; reflexivity|].
    split; [destruct Hpre as [->| ->]; reflexivity|].
    split; [eexists _, _; split; reflexivity|].
    intros url restore tabId index item Hin.
    assert (Hq : EvQueueReaction fileId ty url restore tabId index item =
                 EvQueueReaction fileId ty (Some (src it))
                   (match tab c with
                    | Some _ => Some (mkRestore it (Z.of_nat n))
                    | None => None
                    end) (option_map tab_id (tab c)) (Z.of_nat n) (Some it)).
    { destruct Hpre as [->| ->]; cbn in Hin; intuition congruence. }
    injection Hq as _ -> _ _ ->. split; [reflexivity|].
    destruct (tab c); split; try intuition congruence.
  - rewrite (reaction_on_absent_item_run env fileId ty rm c Hfind).
    cbn [result trace].
    split; [reflexivity|]. split; [reflexivity|]. split; [reflexivity|].
    split.
    { exists [], (EvQueueReaction fileId ty None None (option_map tab_id (tab c)) (-1) None).
      split; reflexivity. }
    intros url restore tabId index item Hin.
    assert (Hq : EvQueueReaction fileId ty url restore tabId index item =
                 EvQueueReaction fileId ty None None (option_map tab_id (tab c)) (-1) None).
    { cbn in Hin. intuition congruence. }
    injection Hq as _ -> _ _ ->. split; [reflexivity|].
    split; [intros Hr; contradiction Hr; reflexivity|].
    intros [Hi _]. contradiction Hi. reflexivity.
Qed.

(** ** Mouse input, continued *)

Lemma handleAltClickReaction_shape (env : Env) (e : MouseEvent) (fileId : Z)
    (c : Component) :
  (exists c', handleAltClickReaction env e fileId c =
              mkRun (Ok tt) c' [EvPreventDefault; EvStopPropagation] /\ c' = c) \/
  (exists it ty n c' pre,
      findById fileId (items c) = Some it /\
      reactionTypeFor e = Some ty /\
      nth_error (items c) n = Some it /\
      (pre = [] \/ pre = [EvMasonryRemove it]) /\
      handleAltClickReaction env e fileId c =
      mkRun (Ok tt) c'
        (EvPreventDefault :: EvStopPropagation ::
         pre ++ [ EvQueueReaction fileId ty (Some (src it))
                    (match tab c with
                     | Some _ => Some (mkRestore it (Z.of_nat n))
                     | None => None
                     end) (option_map tab_id (tab c)) (Z.of_nat n) (Some it);
                  EvOnReaction fileId ty ])).
Proof.
  unfold handleAltClickReaction.
  destruct (reactionTypeFor e) as [ty|] eqn:Hty.
  2:{ left. exists c. split; reflexivity. }
  destruct (findById fileId (items c)) as [it|] eqn:Hfind.
  - right.
    destruct (handleMasonryReaction_present env fileId ty RemoveFn c it Hfind)
      as (n & c' & pre & Hnth & _ & Hrun & Hshape).
    exists it, ty, n, c', pre. split; [reflexivity|]. split; [reflexivity|].
    split; [exact Hnth|].
    split; [destruct Hshape as [[_ ->]|[_ ->]]; [left|right]; reflexivity|].
    eapply (bind_run _ _ c c c' tt (Ok tt) [EvPreventDefault]); [reflexivity|].
    eapply (bind_run _ _ c c c' tt (Ok tt) [EvStopPropagation]); [reflexivity|].
    rewrite get_bind_run, Hfind. exact Hrun.
  - left. exists c. split; [|reflexivity].
    eapply (bind_run _ _ c c c tt (Ok tt) [EvPreventDefault]); [reflexivity|].
    eapply (bind_run _ _ c c c tt (Ok tt) [EvStopPropagation]); [reflexivity|].
    rewrite get_bind_run, Hfind. reflexivity.
Qed.

Lemma handleAltClickOnMasonry_shape (env : Env) (e : MouseEvent) (c : Component) :
  handleAltClickOnMasonry env e c = mkRun (Ok tt) c [] \/
  exists fileId, handleAltClickOnMasonry env e c = handleAltClickReaction env e fileId c.
Proof.
  unfold handleAltClickOnMasonry. rewrite get_bind_run.
  destruct (masonryContainer c); cbn [negb]; [|left; reflexivity].
  destruct (target e) as [| |tile]; [left; reflexivity|left; reflexivity|].
  destruct (dataItemId tile) as [| |fileId].
  - destruct (img tile) as [imgSrc|]; [|left; reflexivity].
    destruct (findBySrc imgSrc (items c)) as [it|]; [|left; reflexivity].
    right. exists (id it). reflexivity.
  - left. reflexivity.
  - right. exists fileId. reflexivity.
Qed.

Lemma dispatch_alt_shape (env : Env) (e : MouseEvent) (c : Component) :
  altKey e = true ->
  exists prefix r,
    dispatch env e c = mkRun (result r) (final r) (prefix ++ trace r) /\
    (prefix = [] \/ prefix = [EvPreventDefault]) /\
    (r = mkRun (Ok tt) c [] \/ r = handleAltClickOnMasonry env e c).
Proof.
  intros Halt. unfold dispatch, onMasonryClick, onMasonryMouseDown. rewrite Halt.
  destruct (e_type e).
  - exists [], (handleAltClickOnMasonry env e c).
    split; [destruct (handleAltClickOnMasonry env e c); reflexivity|].
    split; [left; reflexivity|right; reflexivity].
  - exists [EvPreventDefault], (handleAltClickOnMasonry env e c).
    split; [|split; [right; reflexivity|right; reflexivity]].
    destruct (handleAltClickOnMasonry env e c) as [res fin tr] eqn:Hrun.
    erewrite bind_run; [|apply emit_run|exact Hrun]. reflexivity.
  - cbn [andb]. destruct (Z.eqb (button e) 1).
    + exists [], (handleAltClickOnMasonry env e c).
      split; [destruct (handleAltClickOnMasonry env e c); reflexivity|].
      split; [left; reflexivity|right; reflexivity].
    + exists [], (mkRun (Ok tt) c []).
      split; [reflexivity|]. split; left; reflexivity.
Qed.

(** X8.  A mouse event with ALT held queues at most one reaction, and only
    for an item that is in the list: the queued reaction carries that item
    and the index at which the list holds it.  The handlers return
    normally. *)
Theorem alt_event_reacts_to_a_listed_item (env : Env) (e : MouseEvent) (c : Component) :
  altKey e = true ->
  let r := dispatch env e c in
  result r = Ok tt /\
  List.length (queued (trace r)) <= 1 /\
  (forall fileId ty url restore tabId index item,
      In (EvQueueReaction fileId ty url restore tabId index item) (trace r) ->
      exists x, item = Some x /\ id x = fileId /\ In x (items c) /\
                (0 <= index)%Z /\ nth_error (items c) (Z.to_nat index) = Some x).
Proof.
  intros Halt r. subst r.
  destruct (dispatch_alt_shape env e c Halt) as (prefix & r & Hrun & Hprefix & Hr).
  rewrite Hrun. cbn [result trace]. clear Hrun.
  assert (Hcases :
            (result r = Ok tt /\
             (trace r = [] \/ trace r = [EvPreventDefault; EvStopPropagation])) \/
            (exists it ty n pre fileId restore tabId,
                result r = Ok tt /\
                id it = fileId /\ In it (items c) /\ nth_error (items c) n = Some it /\
                (pre = [] \/ pre = [EvMasonryRemove it]) /\
                trace r = EvPreventDefault :: EvStopPropagation ::
                          pre ++ [ EvQueueReaction fileId ty (Some (src it)) restore tabId
                                     (Z.of_nat n) (Some it);
                                   EvOnReaction fileId ty ])).
  { destruct Hr as [->| ->]; [left; split; [reflexivity|left; reflexivity]|].
    destruct (handleAltClickOnMasonry_shape env e c) as [->|[fileId ->]];
      [left; split; [reflexivity|left; reflexivity]|].
    destruct (handleAltClickReaction_shape env e fileId c)
      as [(c' & -> & _)|(it & ty & n & c' & pre & Hfind & _ & Hnth & Hpre & ->)].
    - left. split; [reflexivity|right; reflexivity].
    - right. exists it, ty, n, pre, fileId. eexists _, _.
      split; [reflexivity|]. split; [apply (findById_id _ _ _ Hfind)|].
      split; [apply (findById_in _ _ _ Hfind)|]. split; [exact Hnth|].
      split; [exact Hpre|reflexivity]. }
  destruct Hcases as [[Hok Htr]|(it & ty & n & pre & fileId & restore & tabId &
                                   Hok & Hid & Hin & Hnth & Hpre & Htr)].
  - split; [exact Hok|].
    destruct Hprefix as [->| ->], Htr as [->| ->]; cbn;
      (split; [lia|]); intros; intuition discriminate.
  - split; [exact Hok|]. rewrite Htr.
    split; [destruct Hprefix as [->| ->], Hpre as [->| ->]; cbn; lia|].
    intros f ty' url restore' tabId' index item Hq.
    assert (Heq : EvQueueReaction f ty' url restore' tabId' index item =
                  EvQueueReaction fileId ty (Some (src it)) restore tabId (Z.of_nat n)
                    (Some it)).
    { destruct Hprefix as [->| ->], Hpre as [->| ->]; cbn in Hq; intuition congruence. }
    injection Heq as -> _ _ _ _ -> ->.
    exists it. rewrite Nat2Z.id. repeat split; auto. lia.
Qed.

Lemma alt_event_reacts_to_a_listed_item_witness :
  List.length (queued (trace (dispatch Scenes.syncEnv (Scenes.altOnTile click 0)
                                Inputs.gallery))) <= 1.
Proof.
  exact (proj1 (proj2 (alt_event_reacts_to_a_listed_item Scenes.syncEnv
                         (Scenes.altOnTile click 0) Inputs.gallery eq_refl))).
Defined.

(** X9.  Without ALT the container's handlers never queue a reaction and
    never change the component: a [click] with button 0 opens the overlay
    when the FileViewer is mounted, a [contextmenu] event only has its
    default prevented (and opens the overlay if its button is 0), and a
    [mousedown] does nothing. *)
Theorem plain_event_never_reacts (env : Env) (e : MouseEvent) (c : Component) :
  altKey e = false ->
  let r := dispatch env e c in
  let opens := if Z.eqb (button e) 0 && fileViewer c then [EvOpenFromClick] else [] in
  result r = Ok tt /\
  final r = c /\
  queued (trace r) = [] /\
  trace r = match e_type e with
            | click => opens
            | contextmenu => EvPreventDefault :: opens
            | mousedown => []
            end.
Proof.
  intros Halt r opens. subst r opens.
  assert (Hclick : onMasonryClick env e c =
                   mkRun (Ok tt) c
                     (if Z.eqb (button e) 0 && fileViewer c then [EvOpenFromClick] else [])).
  { unfold onMasonryClick. rewrite Halt.
    destruct (Z.eqb (button e) 0); cbn [orb andb];
      [rewrite get_bind_run; destruct (fileViewer c); reflexivity|].
    destruct (e_type e); reflexivity. }
  unfold dispatch. destruct (e_type e).
  - rewrite Hclick. destruct (Z.eqb (button e) 0 && fileViewer c);
      repeat split; reflexivity.
  - erewrite bind_run; [|apply emit_run|exact Hclick].
    destruct (Z.eqb (button e) 0 && fileViewer c); repeat split; reflexivity.
  - unfold onMasonryMouseDown. rewrite Halt. repeat split; reflexivity.
Qed.

Lemma plain_event_never_reacts_witness :
  trace (dispatch Scenes.syncEnv
           (mkMouse contextmenu false 2 (OnTile (mkTile (ItemIdNumber 1) None)))
           Inputs.gallery) = [EvPreventDefault].
Proof.
  exact (proj2 (proj2 (proj2 (plain_event_never_reacts Scenes.syncEnv
                                (mkMouse contextmenu false 2
                                   (OnTile (mkTile (ItemIdNumber 1) None)))
                                Inputs.gallery eq_refl)))).
Defined.

Lemma alt_mousedown_other_button (env : Env) (b : Z) (tgt : Target) (c : Component) :
  b <> 1%Z ->
  dispatch env (mkMouse mousedown true b tgt) c = mkRun (Ok tt) c [].
Proof.
  intros Hb. unfold dispatch, onMasonryMouseDown. cbn.
  destruct (Z.eqb_spec b 1); [contradiction|reflexivity].
Qed.

(** X10.  Each ALT gesture on the tile of a listed item queues exactly one
    reaction, though two of them reach the container as two events: the
    [mousedown] of a left or right press is ignored and the [click] or
    [contextmenu] that follows queues [like] or [dislike]; the [mousedown]
    of a middle press queues [love]. *)
Theorem alt_gestures_queue_once (env : Env) (c : Component) (tile : Tile)
    (fileId : Z) (it : MasonryItem) :
  masonryContainer c = true ->
  dataItemId tile = ItemIdNumber fileId ->
  findById fileId (items c) = Some it ->
  let event := fun ty b => mkMouse ty true b (OnTile tile) in
  let pressed := fun b => dispatch env (event mousedown b) c in
  final (pressed 0%Z) = c /\
  final (pressed 2%Z) = c /\
  queued (trace (pressed 0%Z) ++ trace (dispatch env (event click 0%Z) (final (pressed 0%Z))))
    = [(fileId, like)] /\
  queued (trace (pressed 2%Z) ++
          trace (dispatch env (event contextmenu 2%Z) (final (pressed 2%Z))))
    = [(fileId, dislike)] /\
  queued (trace (pressed 1%Z)) = [(fileId, love)].
Proof.
  intros Hcontainer Hid Hfind event pressed. subst event pressed. cbv beta.
  rewrite !alt_mousedown_other_button by discriminate. cbn [final trace app].
  split; [reflexivity|]. split; [reflexivity|].
  pose proof (fun e Halt Htarget =>
                alt_gestures_enqueue env e c tile fileId it Halt Hcontainer Htarget
                  Hid Hfind) as Hgesture.
  split; [|split].
  - destruct (Hgesture (mkMouse click true 0 (OnTile tile)) eq_refl eq_refl)
      as (Hclick & _ & _).
    exact (proj1 (Hclick eq_refl eq_refl)).
  - destruct (Hgesture (mkMouse contextmenu true 2 (OnTile tile)) eq_refl eq_refl)
      as (_ & Hmenu & _).
    exact (proj1 (Hmenu eq_refl eq_refl)).
  - destruct (Hgesture (mkMouse mousedown true 1 (OnTile tile)) eq_refl eq_refl)
      as (_ & _ & Hdown).
    exact (proj1 (Hdown eq_refl eq_refl)).
Qed.

Lemma alt_gestures_queue_once_witness :
  queued (trace (dispatch Scenes.syncEnv (Scenes.altOnTile mousedown 1) Inputs.gallery))
  = [(1%Z, love)].
Proof.
  exact (proj2 (proj2 (proj2 (proj2
           (alt_gestures_queue_once Scenes.syncEnv Inputs.gallery
              (mkTile (ItemIdNumber 1) None) 1 (Inputs.item 1)
              eq_refl eq_refl eq_refl))))).
Defined.

(** X11.  An ALT + click the code cannot tie to a tile is swallowed whole:
    when the container ref is unset, the event has no target, the target is
    outside every tile, the tile's id is not a number, or the tile has
    neither id nor image, nothing is called (the default is not prevented,
    the overlay stays closed) and the component is unchanged.  When the
    tile names an id that no item of the list has, the default is prevented
    and propagation stopped, and nothing else happens. *)
Theorem alt_click_without_item_is_ignored (env : Env) (e : MouseEvent) (c : Component) :
  altKey e = true ->
  e_type e = click ->
  (masonryContainer c = false \/
   target e = NoTarget \/
   target e = OutsideTiles \/
   (exists i, target e = OnTile (mkTile ItemIdNaN i)) \/
   target e = OnTile (mkTile NoItemId None) ->
   dispatch env e c = mkRun (Ok tt) c []) /\
  (forall fileId i,
      masonryContainer c = true ->
      target e = OnTile (mkTile (ItemIdNumber fileId) i) ->
      findById fileId (items c) = None ->
      dispatch env e c = mkRun (Ok tt) c [EvPreventDefault; EvStopPropagation]).
Proof.
  intros Halt Htype. unfold dispatch, onMasonryClick. rewrite Htype, Halt.
  unfold handleAltClickOnMasonry. rewrite get_bind_run. split.
  - intros Hcase. destruct (masonryContainer c); cbn [negb]; [|reflexivity].
    destruct Hcase as [Hc|[Ht|[Ht|[[i Ht]|Ht]]]]; [discriminate Hc| | | |];
      rewrite Ht; reflexivity.
  - intros fileId i Hc Ht Hfind. rewrite Hc, Ht. cbn [negb dataItemId].
    destruct (handleAltClickReaction_shape env e fileId c)
      as [(c' & Hrun & ->)|(it & _ & _ & _ & _ & Hsome & _)].
    + exact Hrun.
    + rewrite Hfind in Hsome. discriminate Hsome.
Qed.

Lemma alt_click_without_item_is_ignored_witness :
  dispatch Scenes.syncEnv (mkMouse click true 0 OutsideTiles) Inputs.gallery =
  mkRun (Ok tt) Inputs.gallery [].
Proof.
  exact (proj1 (alt_click_without_item_is_ignored Scenes.syncEnv
                  (mkMouse click true 0 OutsideTiles) Inputs.gallery eq_refl eq_refl)
           (or_intror (or_intror (or_introl eq_refl)))).
Defined.

(** ** Waiting for the Masonry instance, precisely *)

Lemma waitForMasonry_mounted (env : Env) (retries : nat) (c : Component)
    (m : MasonryInstance) :
  masonry c = Some m -> waitForMasonry env retries c = (retries, c, []).
Proof.
  funelim (waitForMasonry env retries c); intros Hc; [reflexivity|congruence|congruence].
Qed.

Lemma waitForMasonry_reaches (env : Env) (k : nat) (m : MasonryInstance)
    (retries : nat) (c : Component) :
  masonry c = None ->
  retries < k ->
  k <= 20 ->
  (forall j, retries < j -> j < k -> masonryAt env j = None) ->
  masonryAt env k = Some m ->
  waitForMasonry env retries c = (k, observe_masonry (Some m) c, polls (k - retries)).
Proof.
  funelim (waitForMasonry env retries c); intros Hc Hlt Hk Hnone Hsome.
  - congruence.
  - destruct (Nat.eq_dec (S retries) k) as [E|E].
    + subst k. replace (S retries - retries) with 1 by lia.
      rewrite Hsome, (waitForMasonry_mounted env (S retries) (observe_masonry (Some m) c) m eq_refl).
      reflexivity.
    + rewrite (H k m); [|cbn; apply Hnone; lia|lia|lia|intros j Hj1 Hj2; apply Hnone; lia|exact Hsome].
      cbn [observe_masonry]. replace (k - retries) with (S (k - S retries)) by lia.
      reflexivity.
  - lia.
Qed.

(** X12.  The wait ends with the first poll that finds the instance: if
    the Masonry ref is empty at the start and first set after the [k]-th
    round, with [0 < k <= 20], the loop runs exactly [k] rounds, setting [k]
    timers, and the component then holds that instance. *)
Theorem waitForMasonry_stops_at_first_mount (env : Env) (k : nat) (m : MasonryInstance)
    (c : Component) :
  masonry c = None ->
  0 < k ->
  k <= 20 ->
  (forall j, 0 < j -> j < k -> masonryAt env j = None) ->
  masonryAt env k = Some m ->
  waitForMasonry env 0 c = (k, observe_masonry (Some m) c, polls k) /\
  List.length (filter isTimeout (polls k)) = k.
Proof.
  intros Hc Hpos Hk Hnone Hsome.
  rewrite (waitForMasonry_reaches env k m 0 c Hc Hpos Hk Hnone Hsome), Nat.sub_0_r.
  split; [reflexivity|apply timeouts_of_polls].
Qed.

Lemma waitForMasonry_stops_at_first_mount_witness :
  fst (fst (waitForMasonry (Inputs.serves [] 3) 0 (Inputs.fresh None))) = 3.
Proof.
  pose proof (waitForMasonry_stops_at_first_mount (Inputs.serves [] 3) 3 Inputs.mounted
                (Inputs.fresh None) eq_refl ltac:(lia) ltac:(lia)) as H.
  rewrite (proj1 (H ltac:(intros j H0 H3;
                          destruct j as [|[|[|j]]]; [lia|reflexivity|reflexivity|lia])
                    eq_refl)).
  reflexivity.
Defined.

(** ** Handing the pre-loaded items to Masonry *)

Lemma in_polls (e : Event) (n : nat) :
  In e (polls n) -> e = EvNextTick \/ e = EvSetTimeout 50.
Proof.
  induction n as [|n IH]; [contradiction|].
  cbn. intros [E|[E|Hin]]; [left; congruence|right; congruence|apply IH, Hin].
Qed.

Lemma init_in_initTrace (env : Env) (t : BrowseTabData) (retries : nat)
    (m : option MasonryInstance) (its : list MasonryItem) (p n : JsVal) :
  In (EvMasonryInit its p n) (initTrace env t retries m) ->
  m <> None /\ its = reloadedItems env t /\ p = pageValue t /\ n = nextValue t.
Proof.
  unfold initTrace. intros Hin. apply in_app_or in Hin.
  destruct Hin as [Hin|Hin]; [destruct (in_polls _ _ Hin); discriminate|].
  destruct m as [i|]; [|contradiction].
  split; [discriminate|].
  destruct (present (nextValue t)); cbn in Hin;
    repeat (destruct Hin as [E|Hin];
            [try discriminate E; injection E as <- <- <-; repeat split|]);
    contradiction.
Qed.

Lemma no_init_outside (env : Env) (t : BrowseTabData) (c : Component)
    (its : list MasonryItem) (p n : JsVal) :
  ~ In (EvMasonryInit its p n)
      (teardownTrace c ++ installTrace env t (onTabDataLoadingChange c)).
Proof.
  intros Hin. apply in_app_or in Hin. destruct Hin as [Hin|Hin].
  - unfold teardownTrace, destroyTrace in Hin.
    destruct (fileViewer c), (masonry c) as [i|]; [destruct (isLoading i)| |destruct (isLoading i)|];
      cbn in Hin; intuition discriminate.
  - unfold installTrace, reloadTrace in Hin.
    destruct (nonempty (fileIds t)), (onTabDataLoadingChange c),
      (loadTabItems env (tab_id t)); cbn in Hin; intuition discriminate.
Qed.

(** X13.  [initializeTab] calls [masonry.init] at most once, and exactly
    when, at the end, the tab holds pre-loaded items and an instance is
    behind the ref.  The call passes the very values the component ends up
    with: the tab's [itemsData], [currentPage] and [nextCursor]. *)
Theorem init_agrees_with_component (env : Env) (c : Component) (t : BrowseTabData) :
  tab c = Some t ->
  let r := initializeTab env c in
  List.length (filter isMasonryInit (trace r)) <= 1 /\
  (forall its p n,
      In (EvMasonryInit its p n) (trace r) ->
      its = tabItemsData (final r) /\ its <> [] /\
      p = currentPage (final r) /\ n = nextCursor (final r) /\
      masonry (final r) <> None) /\
  (tabHasItems (final r) = true -> masonry (final r) <> None ->
   In (EvMasonryInit (tabItemsData (final r)) (currentPage (final r))
         (nextCursor (final r))) (trace r)).
Proof.
  intros Ht r. subst r.
  destruct (initializeTab_run env c t Ht) as (retries & m' & _ & _ & Hrun).
  rewrite Hrun. cbn [trace final].
  change (tabHasItems (apply_write (WIsTabRestored false)
                         (observe_masonry m' (installedState env t c))))
    with (tabHasItems (observe_masonry m' (installedState env t c))).
  change (tabItemsData (apply_write (WIsTabRestored false)
                          (observe_masonry m' (installedState env t c))))
    with (tabItemsData (observe_masonry m' (installedState env t c))).
  rewrite (tabHasItems_installed env t c m' Ht), (tabItemsData_installed env t c m' Ht).
  cbn [masonry currentPage nextCursor apply_write observe_masonry installedState].
  split; [|split].
  - rewrite !filter_app, filter_teardown by reflexivity.
    unfold installTrace, reloadTrace, initTrace.
    destruct (isNil (reloadedItems env t));
      rewrite ?filter_app, ?filter_polls by reflexivity;
      destruct (nonempty (fileIds t)), (onTabDataLoadingChange c),
        (loadTabItems env (tab_id t)), m' as [i|], (present (nextValue t));
      cbn; lia.
  - intros its p n Hin. rewrite app_assoc in Hin.
    apply in_app_or in Hin. destruct Hin as [Hin|Hin];
      [exfalso; exact (no_init_outside env t c its p n Hin)|].
    apply in_app_or in Hin. destruct Hin as [Hin|[E|[]]]; [|discriminate E].
    destruct (isNil (reloadedItems env t)) eqn:Hnil; [contradiction|].
    destruct (init_in_initTrace env t retries m' its p n Hin) as (Hm & -> & -> & ->).
    repeat split; try exact Hm.
    intros E. rewrite E in Hnil. discriminate Hnil.
  - intros Hitems Hm. destruct (isNil (reloadedItems env t)); [discriminate Hitems|].
    apply in_or_app. right. apply in_or_app. right. apply in_or_app. left.
    unfold initTrace. apply in_or_app. right.
    destruct m' as [i|]; [|contradiction Hm; reflexivity].
    right. apply in_or_app. right. left. reflexivity.
Qed.

Lemma init_agrees_with_component_witness :
  let r := initializeTab (Inputs.serves [Inputs.item 1; Inputs.item 2] 3)
             (Inputs.fresh (Some Inputs.cursorTab)) in
  In (EvMasonryInit (tabItemsData (final r)) (currentPage (final r)) (nextCursor (final r)))
     (trace r).
Proof.
  refine (proj2 (proj2 (init_agrees_with_component
                          (Inputs.serves [Inputs.item 1; Inputs.item 2] 3)
                          (Inputs.fresh (Some Inputs.cursorTab)) Inputs.cursorTab eq_refl))
            eq_refl _).
  vm_compute. discriminate.
Defined.

Lemma initWithPreloadedItems_polled (env : Env) (t : BrowseTabData) (c : Component)
    (retries : nat) (m' : option MasonryInstance) :
  currentPage c = pageValue t ->
  nextCursor c = nextValue t ->
  tabHasItems c = true ->
  waitForMasonry env 0 c = (retries, observe_masonry m' c, polls retries) ->
  initWithPreloadedItems env (query page t) (query next t) c =
  mkRun (Ok tt) (observe_masonry m' c)
    (polls retries ++
     match m' with
     | Some _ =>
         EvWrite (WCurrentPage (pageValue t)) ::
         (if present (nextValue t) then [EvWrite (WNextCursor (nextValue t))] else []) ++
         [ EvMasonryInit (tabItemsData c) (pageValue t) (nextValue t);
           EvNextTick;
           EvScheduleRefreshLayout ]
     | None => []
     end).
Proof.
  intros Hp Hn Hitems Hwait.
  assert (Hpoll : pollMasonry env c = mkRun (Ok retries) (observe_masonry m' c) (polls retries)).
  { unfold pollMasonry. rewrite Hwait. reflexivity. }
  unfold initWithPreloadedItems. rewrite get_bind_run, Hitems.
  destruct m' as [i|].
  - eapply eq_trans.
    + step Hpoll. step get_run.
      change (masonry (observe_masonry (Some i) c)) with (Some i). cbv iota zeta.
      fold (pageValue t). fold (nextValue t). rewrite present_pageValue.
      step when_write_run. step when_write_run. step emit_run. step emit_run.
      apply emit_run.
    + f_equal. apply (rewrite_pagination t (observe_masonry (Some i) c) Hp Hn).
  - eapply eq_trans.
    + step Hpoll. step get_run. reflexivity.
    + reflexivity.
Qed.

(** [initializeTab] for a tab whose reload gave items, from the outcome of
    the wait. *)
Lemma initializeTab_polled (env : Env) (c : Component) (t : BrowseTabData)
    (retries : nat) (m' : option MasonryInstance) :
  tab c = Some t ->
  isNil (reloadedItems env t) = false ->
  waitForMasonry env 0 (observe_masonry (masonryAt env 0) (installedState env t c)) =
    (retries, observe_masonry m' (installedState env t c), polls retries) ->
  initializeTab env c =
  mkRun (Ok tt)
    (apply_write (WIsTabRestored false) (observe_masonry m' (installedState env t c)))
    (teardownTrace c ++
     installTrace env t (onTabDataLoadingChange c) ++
     initTrace env t retries m' ++
     [EvWrite (WIsTabRestored false)]).
Proof.
  intros Ht Hnil Hwait.
  set (c2 := observe_masonry (masonryAt env 0) (installedState env t c)) in *.
  assert (Hitems : tabHasItems c2 = true).
  { unfold c2. rewrite (tabHasItems_installed env t c _ Ht), Hnil. reflexivity. }
  pose proof (initWithPreloadedItems_polled env t c2 retries m' eq_refl eq_refl
                Hitems Hwait) as Hinit.
  unfold c2 in Hinit. rewrite (tabItemsData_installed env t c _ Ht) in Hinit.
  unfold initializeTab. rewrite get_bind_run, Ht.
  eapply eq_trans.
  - step when_emit_run. step destroyMasonry_run.
    step write_run. step write_run. step write_run.
    step reloadItems_run. step restorePage_run. step restoreNext_run.
    step get_run.
    rewrite !tabHasItems_write by exact I.
    rewrite (tabHasItems_reloaded _ t) by exact Ht.
    step setLoadAtPage_run. step nextTickAfterInstall_run.
    step Hinit. apply write_run.
  - unfold teardownTrace, installTrace, initTrace, loadTrigger, tabHasRestorableItems.
    f_equal. rewrite <- !app_assoc. reflexivity.
Qed.

(** X14.  When the reload gave items but no Masonry instance appears,
    neither at the [nextTick] nor in any of the polls, [initializeTab]
    gives up after exactly 20 timers: it returns normally, [masonry.init]
    is never called, the list of visible items stays empty though the tab
    holds the loaded snapshots, and [loadAtPage] is [null], so that nothing
    will fetch either. *)
Theorem initializeTab_gives_up_without_masonry
    (env : Env) (c : Component) (t : BrowseTabData) :
  tab c = Some t ->
  reloadedItems env t <> [] ->
  (forall k, masonryAt env k = None) ->
  let r := initializeTab env c in
  result r = Ok tt /\
  List.length (filter isTimeout (trace r)) = 20 /\
  existsb isMasonryInit (trace r) = false /\
  items (final r) = [] /\
  tabItemsData (final r) = reloadedItems env t /\
  loadAtPage (final r) = JNull /\
  isTabRestored (final r) = false.
Proof.
  intros Ht Hitems Hnever r. subst r.
  assert (Hnil : isNil (reloadedItems env t) = false)
    by (destruct (reloadedItems env t); [contradiction Hitems; reflexivity|reflexivity]).
  set (c2 := observe_masonry (masonryAt env 0) (installedState env t c)).
  assert (Hwait : waitForMasonry env 0 c2 = (20, observe_masonry None (installedState env t c), polls 20)).
  { destruct (waitForMasonry_spec env 0 c2)
      as (r' & m' & Hrun & _ & Hmax & Hnone & Hsame & Hlater).
    assert (Hm : m' = None).
    { destruct r' as [|r']; [rewrite (Hsame eq_refl); apply Hnever|].
      rewrite (Hlater (Nat.lt_0_succ r')). apply Hnever. }
    specialize (Hnone Hm). specialize (Hmax (Nat.le_0_l _)).
    assert (r' = 20) by lia. subst r' m'. rewrite Hrun. reflexivity. }
  rewrite (initializeTab_polled env c t 20 None Ht Hnil Hwait).
  cbn [result final trace].
  split; [reflexivity|]. split; [|split].
  - rewrite !filter_app, filter_teardown by reflexivity.
    unfold installTrace, reloadTrace, initTrace.
    rewrite !filter_app, !length_app, timeouts_of_polls.
    destruct (nonempty (fileIds t)), (onTabDataLoadingChange c),
      (loadTabItems env (tab_id t)); reflexivity.
  - rewrite !existsb_app. unfold teardownTrace, destroyTrace, installTrace, reloadTrace.
    destruct (fileViewer c), (masonry c) as [i|], (nonempty (fileIds t)),
      (onTabDataLoadingChange c), (loadTabItems env (tab_id t));
      try destruct (isLoading i); reflexivity.
  - split; [reflexivity|]. split.
    + change (tabItemsData (apply_write (WIsTabRestored false)
                              (observe_masonry None (installedState env t c))))
        with (tabItemsData (observe_masonry None (installedState env t c))).
      apply (tabItemsData_installed env t c None Ht).
    + cbn. unfold loadTrigger. rewrite Hnil. split; reflexivity.
Qed.

Lemma initializeTab_gives_up_without_masonry_witness :
  let env := mkEnv (fun _ => Resolved [Inputs.item 1]) (fun _ => None) (fun _ l => l) in
  List.length (filter isTimeout
                 (trace (initializeTab env (Inputs.fresh (Some Inputs.cursorTab))))) = 20.
Proof.
  refine (proj1 (proj2 (initializeTab_gives_up_without_masonry
                          (mkEnv (fun _ => Resolved [Inputs.item 1]) (fun _ => None)
                             (fun _ l => l))
                          (Inputs.fresh (Some Inputs.cursorTab)) Inputs.cursorTab
                          eq_refl _ (fun _ => eq_refl)))).
  cbn. discriminate.
Defined.

(** ** What the template shows after a restore *)

(** X15.  [initializeTab] replaces the tab's snapshots: the tab keeps its
    id, [queryParams] and [fileIds], and its [itemsData] is what the load
    returned, or the empty list when the load failed or when [fileIds] is
    empty, so that snapshots a tab without [fileIds] carried before are
    dropped.  The script itself only ever assigns the empty list to the
    visible items: on a run in which [masonry.init] is not called the list
    is empty on return.  A pending restore cursor is kept only for a tab
    that had something to restore. *)
Theorem initializeTab_resets_lists (env : Env) (c : Component) (t : BrowseTabData) :
  tab c = Some t ->
  let r := initializeTab env c in
  (existsb isMasonryInit (trace r) = false -> items (final r) = []) /\
  (exists l,
      tab (final r) = Some (mkTab (tab_id t) (queryParams t) (fileIds t) (Some l)) /\
      (nonempty (fileIds t) = false -> l = []) /\
      (forall reason, loadTabItems env (tab_id t) = Rejected reason -> l = []) /\
      (forall loaded, nonempty (fileIds t) = true ->
                      loadTabItems env (tab_id t) = Resolved loaded -> l = loaded)) /\
  (nonempty (fileIds t) = false -> nonempty (itemsData t) = false ->
   pendingRestoreNextCursor (final r) = JNull) /\
  (nonempty (fileIds t) = true \/ nonempty (itemsData t) = true ->
   pendingRestoreNextCursor (final r) = nextCursor (final r)).
Proof.
  intros Ht r. subst r.
  destruct (initializeTab_run env c t Ht) as (retries & m' & _ & _ & Hrun).
  rewrite Hrun. cbn [final]. split; [intros _; reflexivity|].
  cbn. rewrite Ht. cbn. unfold tabHasRestorableItems.
  split; [|split].
  - exists (reloadedItems env t). split; [reflexivity|].
    unfold reloadedItems. split; [intros ->; reflexivity|]. split.
    + intros reason ->. destruct (nonempty (fileIds t)); reflexivity.
    + intros loaded -> ->. reflexivity.
  - intros -> ->. reflexivity.
  - unfold nextValue, nullish_or.
    intros [->| ->]; rewrite ?orb_true_r; cbn; destruct (present (query next t));
      reflexivity.
Qed.

Lemma initializeTab_resets_lists_witness :
  items (final (initializeTab Inputs.failing
                  (mkComponent (Some Inputs.cursorTab) true true [Inputs.item 9] None
                     true true (JNum 1) JNull JNull false JNull (JStr "")))) = [].
Proof.
  exact (proj1 (initializeTab_resets_lists Inputs.failing
                  (mkComponent (Some Inputs.cursorTab) true true [Inputs.item 9] None
                     true true (JNum 1) JNull JNull false JNull (JStr ""))
                  Inputs.cursorTab eq_refl)
           eq_refl).
Defined.

Lemma strictEq_refl (v : JsVal) : strictEq v v = true.
Proof. destruct v; cbn; [reflexivity|reflexivity|apply Z.eqb_refl|apply String.eqb_refl]. Qed.

(** X16.  Right after [initializeTab] the Apply button is disabled, whatever
    the tab: the service shown in the select is the tab's own service, or
    nothing is selected. *)
Theorem apply_is_disabled_after_restore
    (env : Env) (c : Component) (t : BrowseTabData) (isApplyingService : bool) :
  tab c = Some t ->
  let r := initializeTab env c in
  applyDisabled isApplyingService (final r) = true /\
  (truthy (query service t) = true -> selectedService (final r) = currentTabService (final r)) /\
  (truthy (query service t) = false -> selectedService (final r) = JStr "").
Proof.
  intros Ht r. subst r.
  destruct (initializeTab_run env c t Ht) as (retries & m' & _ & _ & Hrun).
  rewrite Hrun. unfold applyDisabled, currentTabService. cbn. rewrite Ht. cbn.
  unfold js_or, query. cbn.
  destruct (truthy (match queryParams t with Some q => service q | None => JUndefined end))
    eqn:Htruthy.
  - rewrite Htruthy, strictEq_refl, orb_true_r. repeat split. discriminate.
  - repeat split. discriminate.
Qed.

Lemma apply_is_disabled_after_restore_witness :
  applyDisabled false
    (final (initializeTab Inputs.failing (Inputs.fresh (Some Inputs.cursorTab)))) = true.
Proof.
  exact (proj1 (apply_is_disabled_after_restore Inputs.failing
                  (Inputs.fresh (Some Inputs.cursorTab)) Inputs.cursorTab false eq_refl)).
Defined.

(** X17.  After [initializeTab] the status bar shows the restored page
    token itself, [displayPage] never falling back to its default, and the
    FileViewer is told there is more to load exactly when a next cursor was
    persisted; without one, [handleCarouselLoadMore] never calls
    [loadNext]. *)
Theorem pagination_shown_after_restore (env : Env) (c : Component) (t : BrowseTabData) :
  tab c = Some t ->
  let r := initializeTab env c in
  displayPage (final r) = currentPage (final r) /\
  present (currentPage (final r)) = true /\
  hasMore (final r) = present (query next t) /\
  (present (query next t) = false ->
   forall hasLoadNext, handleCarouselLoadMore hasLoadNext (final r) = false).
Proof.
  intros Ht r. subst r.
  destruct (initializeTab_run env c t Ht) as (retries & m' & _ & _ & Hrun).
  rewrite Hrun. unfold displayPage, hasMore, handleCarouselLoadMore, hasMore, nullish_or.
  cbn. rewrite present_pageValue. unfold nextValue.
  split; [reflexivity|]. split; [reflexivity|].
  destruct (present (query next t)) eqn:Hnext.
  - split; [|discriminate]. destruct (query next t); try discriminate Hnext; reflexivity.
  - split; [reflexivity|]. intros _ hasLoadNext. destruct m'; reflexivity.
Qed.

Lemma pagination_shown_after_restore_witness :
  displayPage (final (initializeTab Inputs.failing (Inputs.fresh (Some Inputs.cursorTab))))
  = JStr "cursor-x".
Proof.
  rewrite (proj1 (pagination_shown_after_restore Inputs.failing
                    (Inputs.fresh (Some Inputs.cursorTab)) Inputs.cursorTab eq_refl)).
  reflexivity.
Defined.

(** ** The fallback lookup by image source *)

Lemma beforeChar_append (ch : ascii) (s q : string) :
  beforeChar ch (String.append s (String ch q)) = beforeChar ch s.
Proof.
  induction s as [|a s IH]; cbn.
  - rewrite Ascii.eqb_refl. reflexivity.
  - destruct (Ascii.eqb a ch); [reflexivity|]. rewrite IH. reflexivity.
Qed.

Lemma baseOf_query (s q : string) : baseOf (String.append s (String "?" q)) = baseOf s.
Proof. unfold baseOf. rewrite beforeChar_append. reflexivity. Qed.

Lemma baseOf_fragment (s q : string) : baseOf (String.append s (String "#" q)) = baseOf s.
Proof.
  unfold baseOf. induction s as [|a s IH]; [reflexivity|].
  cbn [String.append beforeChar].
  destruct (Ascii.eqb a "?"); [reflexivity|].
  cbn [beforeChar]. destruct (Ascii.eqb a "#"); [reflexivity|].
  rewrite IH. reflexivity.
Qed.

Lemma includes_empty (s : string) : includes s EmptyString = true.
Proof. destruct s; reflexivity. Qed.

(** X18.  The lookup used for a tile without [data-item-id] does not see
    the query string or the fragment of the image URL: appending [?...] or
    [#...] to the image source gives the same item.  It returns an item of
    the list; it finds one whenever some item's source agrees with the
    image's up to query string and fragment; and an item whose source is
    empty up to query string and fragment matches every image. *)
Theorem findBySrc_ignores_query_and_fragment
    (imgSrc q : string) (l : list MasonryItem) :
  findBySrc (String.append imgSrc (String "?" q)) l = findBySrc imgSrc l /\
  findBySrc (String.append imgSrc (String "#" q)) l = findBySrc imgSrc l /\
  (forall it, findBySrc imgSrc l = Some it -> In it l) /\
  (forall it, In it l -> baseOf (src it) = baseOf imgSrc -> findBySrc imgSrc l <> None) /\
  (forall it, In it l -> baseOf (src it) = EmptyString -> findBySrc imgSrc l <> None).
Proof.
  unfold findBySrc. rewrite baseOf_query, baseOf_fragment.
  split; [reflexivity|]. split; [reflexivity|]. split; [|split].
  - intros it Hf. apply find_some in Hf. exact (proj1 Hf).
  - intros it Hin Hsrc Hnone.
    pose proof (find_none _ _ Hnone it Hin) as Hit. cbn in Hit.
    rewrite Hsrc, String.eqb_refl in Hit. discriminate Hit.
  - intros it Hin Hsrc Hnone.
    pose proof (find_none _ _ Hnone it Hin) as Hit. cbn in Hit.
    rewrite Hsrc, includes_empty, orb_true_r in Hit. discriminate Hit.
Qed.

Lemma findBySrc_ignores_query_and_fragment_witness :
  findBySrc "test.jpg?w=300" (items Inputs.gallery) =
  findBySrc "test.jpg" (items Inputs.gallery).
Proof.
  exact (proj1 (findBySrc_ignores_query_and_fragment "test.jpg" "w=300"
                  (items Inputs.gallery))).
Defined.

(** ** Mounting and switching tabs *)

(** X19.  The watcher on the tab id re-initialises only on a real change:
    it does nothing, so that nothing is closed or destroyed, when the id is
    the one it was, when there is no id, when the id is [0] and when the
    component has no tab; for any other change it does what [onMounted]
    does, and [onMounted] does what [initializeTab] does, which itself
    returns at once without a tab. *)
Theorem tab_watcher_reinitializes_on_change
    (env : Env) (newId oldId : option Z) (c : Component) :
  onMounted env c = initializeTab env c /\
  (newId = oldId \/ newId = None \/ newId = Some 0%Z \/ tab c = None ->
   onTabIdChange env newId oldId c = mkRun (Ok tt) c []) /\
  (forall n, newId = Some n -> n <> 0%Z -> oldId <> Some n ->
             onTabIdChange env newId oldId c = onMounted env c).
Proof.
  assert (Hmount : onMounted env c = initializeTab env c).
  { unfold onMounted. rewrite get_bind_run.
    destruct (tab c) eqn:Ht; [reflexivity|].
    rewrite (initializeTab_no_tab env c Ht). reflexivity. }
  split; [exact Hmount|]. unfold onTabIdChange. rewrite get_bind_run. split.
  - intros Hcase. destruct newId as [n|]; [|reflexivity].
    destruct Hcase as [<-|[E|[E|Ht]]].
    + rewrite Z.eqb_refl. cbn [negb andb]. rewrite andb_false_r. reflexivity.
    + discriminate E.
    + injection E as ->. reflexivity.
    + rewrite Ht, !andb_false_r. reflexivity.
  - intros n -> Hn Hold. rewrite Hmount.
    replace (Z.eqb n 0) with false by (symmetry; apply Z.eqb_neq, Hn).
    replace (match oldId with Some o => Z.eqb n o | None => false end) with false.
    2:{ destruct oldId as [o|]; [|reflexivity]. symmetry. apply Z.eqb_neq.
        intros E. apply Hold. rewrite E. reflexivity. }
    cbn [negb andb]. destruct (tab c) eqn:Ht; [reflexivity|].
    rewrite (initializeTab_no_tab env c Ht). reflexivity.
Qed.

Lemma tab_watcher_reinitializes_on_change_witness :
  onTabIdChange Inputs.failing (Some 1%Z) (Some 1%Z) Inputs.gallery =
  mkRun (Ok tt) Inputs.gallery [].
Proof.
  exact (proj1 (proj2 (tab_watcher_reinitializes_on_change Inputs.failing
                         (Some 1%Z) (Some 1%Z) Inputs.gallery))
           (or_introl eq_refl)).
Defined.

(** X20.  Initialising the same tab again, with [loadTabItems] answering as
    before, restores the same state: [currentPage], [nextCursor],
    [loadAtPage], the selected service and the tab with its reloaded
    snapshots all come out as after the first initialisation, and the
    restoration flag is false again. *)
Theorem initializeTab_again_restores_the_same
    (env env' : Env) (c : Component) (t : BrowseTabData) :
  tab c = Some t ->
  (forall tabId, loadTabItems env' tabId = loadTabItems env tabId) ->
  let first := final (initializeTab env c) in
  let second := final (initializeTab env' first) in
  result (initializeTab env' first) = Ok tt /\
  currentPage second = currentPage first /\
  nextCursor second = nextCursor first /\
  loadAtPage second = loadAtPage first /\
  selectedService second = selectedService first /\
  tab second = tab first /\
  isTabRestored second = false.
Proof.
  intros Ht Hload first second. subst second first.
  destruct (initializeTab_run env c t Ht) as (retries & m' & _ & _ & Hrun).
  rewrite Hrun. cbn [final].
  set (t1 := set_itemsData (reloadedItems env t) t).
  assert (Ht1 : tab (apply_write (WIsTabRestored false)
                       (observe_masonry m' (installedState env t c))) = Some t1).
  { cbn. rewrite Ht. reflexivity. }
  destruct (initializeTab_run env' _ t1 Ht1) as (retries2 & m2 & _ & _ & Hrun2).
  rewrite Hrun2. cbn [result final].
  assert (Hreload : reloadedItems env' t1 = reloadedItems env t).
  { unfold reloadedItems, t1. cbn. rewrite Hload. reflexivity. }
  split; [reflexivity|].
  cbn. rewrite Ht. cbn. unfold loadTrigger. rewrite Hreload.
  repeat split.
Qed.

Lemma initializeTab_again_restores_the_same_witness :
  let first := final (initializeTab (Inputs.serves [Inputs.item 1] 2)
                        (Inputs.fresh (Some Inputs.cursorTab))) in
  currentPage (final (initializeTab (Inputs.serves [Inputs.item 1] 5) first)) =
  currentPage first.
Proof.
  exact (proj1 (proj2 (initializeTab_again_restores_the_same
                         (Inputs.serves [Inputs.item 1] 2)
                         (Inputs.serves [Inputs.item 1] 5)
                         (Inputs.fresh (Some Inputs.cursorTab)) Inputs.cursorTab
                         eq_refl (fun _ => eq_refl)))).
Defined.
